(** * Telegram_bot.py: category repository, upload sessions and button routing

    A shallow embedding of [src/Telegram_bot.py].

    - [DatabaseManager] is embedded over an explicit model of the two SQLite
      tables.  Every method opens its own connection inside a [with] block,
      which commits when the block ends normally and rolls back when it is
      left by an exception; the enclosing [try/except Exception] turns every
      exception into the method's failure value.
    - [FileManagerBot.pending_uploads] is a finite map from user ids to the
      upload in progress.
    - The message handlers are functions from the bot state to the new state
      and the list of messages sent.

    Strings are sequences of code points below 256; the time stamps and the
    generated uuid prefix are inputs of the operations that use them. *)

From Stdlib Require Import ZArith List String Ascii Sorted Lia Bool.
From stdpp Require Import gmap strings list pretty.
Import ListNotations.

Local Open Scope string_scope.
Local Open Scope Z_scope.

(** ** Python values and exceptions *)

Inductive exn : Type :=
| IntegrityError    (* sqlite3: UNIQUE / NOT NULL constraint failed *)
| OperationalError  (* sqlite3: storage failure, database full *)
| OverflowError     (* Python int too large to convert to SQLite INTEGER *)
| IndexError        (* list index out of range *)
| ValueError.       (* invalid literal for int() *)

(** The dict built by [handle_document] and returned inside a category.
    [document.file_name] and [document.file_size] are optional on the
    platform side, so they may hold [None]. *)
Record file_info : Type := mk_file_info {
  file_id   : string;
  file_name : option string;
  file_size : option Z;
  caption   : string
}.

(** ** The SQLite tables *)

Record category_row : Type := mk_category_row {
  cat_id         : string;   (* TEXT PRIMARY KEY *)
  cat_name       : string;   (* TEXT NOT NULL *)
  cat_created_by : Z;        (* INTEGER NOT NULL *)
  cat_created_at : string    (* TEXT NOT NULL *)
}.

Record file_row : Type := mk_file_row {
  row_id          : Z;             (* INTEGER PRIMARY KEY AUTOINCREMENT *)
  row_category_id : string;        (* TEXT NOT NULL, FOREIGN KEY (not enforced) *)
  row_file_id     : string;        (* TEXT NOT NULL *)
  row_file_name   : string;        (* TEXT NOT NULL *)
  row_file_size   : Z;             (* INTEGER NOT NULL *)
  row_caption     : option string; (* TEXT *)
  row_upload_date : string         (* TEXT NOT NULL *)
}.

(** Both tables are rowid tables and are kept in rowid order, which is the
    order of a table scan.  [sqlite_sequence] is the AUTOINCREMENT counter of
    [files]: the largest rowid ever handed out. *)
Record database : Type := mk_database {
  tbl_categories  : list category_row;
  tbl_files       : list file_row;
  sqlite_sequence : Z
}.

Definition empty_database : database := mk_database [] [] 0.

Definition INT64_MAX : Z := 9223372036854775807.
Definition INT64_MIN : Z := -9223372036854775808.

Definition fits_int64 (z : Z) : bool := (INT64_MIN <=? z) && (z <=? INT64_MAX).

Definition max_rowid (rows : list file_row) : Z :=
  fold_right (fun r m => Z.max (row_id r) m) 0 rows.

(** Insertion into the table b-tree, keyed by rowid. *)
Fixpoint btree_insert (r : file_row) (rows : list file_row) : list file_row :=
  match rows with
  | [] => [r]
  | r' :: rest =>
      if row_id r <? row_id r' then r :: rows else r' :: btree_insert r rest
  end.

(** [ORDER BY id]. *)
Definition order_by_id (rows : list file_row) : list file_row :=
  fold_right btree_insert [] rows.

(** ** Connections, transactions and statements *)

(** [budget] models the storage environment: [None] is a healthy store,
    [Some k] a store that serves [k] more statements and then fails. *)
Record connection : Type := mk_connection {
  committed : database;
  working   : database;
  budget    : option nat
}.

Definition M (A : Type) : Type := connection -> (exn + A) * connection.

Definition ret {A} (a : A) : M A := fun c => (inr a, c).
Definition raise {A} (e : exn) : M A := fun c => (inl e, c).
Definition bind {A B} (m : M A) (k : A -> M B) : M B :=
  fun c => match m c with
           | (inr a, c') => k a c'
           | (inl e, c') => (inl e, c')
           end.

Notation "x <- m ;; k" := (bind m (fun x => k))
  (at level 100, m at next level, right associativity).
Notation "m ;;; k" := (bind m (fun _ => k))
  (at level 100, right associativity).

(** One round trip to the storage engine. *)
Definition storage_step : M unit :=
  fun c => match budget c with
           | None => (inr tt, c)
           | Some O => (inl OperationalError, c)
           | Some (S k) => (inr tt, mk_connection (committed c) (working c) (Some k))
           end.

Definition read_db : M database := fun c => (inr (working c), c).
Definition write_db (d : database) : M unit :=
  fun c => (inr tt, mk_connection (committed c) d (budget c)).

(** [conn.commit()] *)
Definition conn_commit : M unit :=
  storage_step ;;;
  fun c => (inr tt, mk_connection (working c) (working c) (budget c)).

(** [with sqlite3.connect(self.db_path) as conn: body]: the block's changes
    are committed on normal exit and rolled back when an exception leaves
    it. *)
Definition with_connection {A} (fault : option nat) (body : M A) (db : database)
  : (exn + A) * database :=
  match body (mk_connection db db fault) with
  | (inr a, c) => (inr a, working c)
  | (inl e, c) => (inl e, committed c)
  end.

(** [INSERT INTO categories (id, name, created_by, created_at) VALUES (?, ?, ?, ?)] *)
Definition sql_insert_category (cid name : string) (created_by : Z) (now : string) : M unit :=
  if negb (fits_int64 created_by) then raise OverflowError else
  storage_step ;;;
  d <- read_db ;;
  if existsb (fun c => String.eqb (cat_id c) cid) (tbl_categories d)
  then raise IntegrityError
  else write_db (mk_database
                   (tbl_categories d ++ [mk_category_row cid name created_by now])%list
                   (tbl_files d) (sqlite_sequence d)).

(** [INSERT INTO files (category_id, file_id, file_name, file_size, caption,
    upload_date) VALUES (?, ?, ?, ?, ?, ?)].  The rowid is one more than the
    largest rowid that ever existed in the table. *)
Definition sql_insert_file (cid : string) (fi : file_info) (upload_date : string) : M unit :=
  if match file_size fi with Some sz => negb (fits_int64 sz) | None => false end
  then raise OverflowError else
  storage_step ;;;
  d <- read_db ;;
  let top := Z.max (sqlite_sequence d) (max_rowid (tbl_files d)) in
  if INT64_MAX <=? top then raise OperationalError else
  match file_name fi, file_size fi with
  | Some nm, Some sz =>
      let r := mk_file_row (top + 1) cid (file_id fi) nm sz (Some (caption fi)) upload_date in
      write_db (mk_database (tbl_categories d) (btree_insert r (tbl_files d)) (top + 1))
  | _, _ => raise IntegrityError
  end.

(** [SELECT * FROM categories] *)
Definition sql_select_categories : M (list category_row) :=
  storage_step ;;;
  d <- read_db ;;
  ret (tbl_categories d).

(** [SELECT file_id, file_name, file_size, caption FROM files WHERE category_id = ?] *)
Definition sql_select_files (cid : string) : M (list file_row) :=
  storage_step ;;;
  d <- read_db ;;
  ret (List.filter (fun r => String.eqb (row_category_id r) cid) (tbl_files d)).

(** [SELECT id FROM files WHERE category_id = ? ORDER BY id] *)
Definition sql_select_file_ids (cid : string) : M (list Z) :=
  storage_step ;;;
  d <- read_db ;;
  ret (map row_id
         (order_by_id (List.filter (fun r => String.eqb (row_category_id r) cid) (tbl_files d)))).

(** [DELETE FROM files WHERE id = ?] *)
Definition sql_delete_file_by_id (i : Z) : M unit :=
  storage_step ;;;
  d <- read_db ;;
  write_db (mk_database (tbl_categories d)
                        (List.filter (fun r => negb (row_id r =? i)) (tbl_files d))
                        (sqlite_sequence d)).

(** [DELETE FROM files WHERE category_id = ?] *)
Definition sql_delete_files_of (cid : string) : M unit :=
  storage_step ;;;
  d <- read_db ;;
  write_db (mk_database (tbl_categories d)
                        (List.filter (fun r => negb (String.eqb (row_category_id r) cid)) (tbl_files d))
                        (sqlite_sequence d)).

(** [DELETE FROM categories WHERE id = ?] *)
Definition sql_delete_category (cid : string) : M unit :=
  storage_step ;;;
  d <- read_db ;;
  write_db (mk_database (List.filter (fun c => negb (String.eqb (cat_id c) cid)) (tbl_categories d))
                        (tbl_files d) (sqlite_sequence d)).

(** ** Python lists and dicts *)

(** [l[i]] with Python's negative indices; [None] stands for IndexError. *)
Definition py_index {A} (l : list A) (i : Z) : option A :=
  if 0 <=? i then nth_error l (Z.to_nat i)
  else if 0 <=? i + Z.of_nat (length l) then nth_error l (Z.to_nat (i + Z.of_nat (length l)))
  else None.

(** An insertion-ordered dict with string keys. *)
Fixpoint dict_set {V} (k : string) (v : V) (d : list (string * V)) : list (string * V) :=
  match d with
  | [] => [(k, v)]
  | (k', v') :: rest =>
      if String.eqb k' k then (k, v) :: rest else (k', v') :: dict_set k v rest
  end.

Fixpoint dict_get {V} (k : string) (d : list (string * V)) : option V :=
  match d with
  | [] => None
  | (k', v) :: rest => if String.eqb k' k then Some v else dict_get k rest
  end.

(** ** DatabaseManager *)

(** The value of [categories[cat_id]] in [get_categories]. *)
Record category : Type := mk_category {
  name       : string;
  files      : list file_info;
  created_by : Z;
  created_at : string
}.

(** [except Exception as e: ...; return False] *)
Definition or_false (r : (exn + bool) * database) : bool * database :=
  match r with
  | (inr b, d) => (b, d)
  | (inl _, d) => (false, d)
  end.

Definition add_category (fault : option nat) (db : database)
    (category_id name : string) (created_by : Z) (now : string) : bool * database :=
  or_false (with_connection fault
    (sql_insert_category category_id name created_by now ;;;
     conn_commit ;;;
     ret true) db).

(** The dict built from one fetched row; [file_data[3] or ''] for the caption. *)
Definition file_of_row (r : file_row) : file_info :=
  mk_file_info (row_file_id r) (Some (row_file_name r)) (Some (row_file_size r))
               (match row_caption r with Some c => c | None => "" end).

Fixpoint get_categories_loop (categories_data : list category_row)
    (categories : list (string * category)) : M (list (string * category)) :=
  match categories_data with
  | [] => ret categories
  | cat_data :: rest =>
      files_data <- sql_select_files (cat_id cat_data) ;;
      get_categories_loop rest
        (dict_set (cat_id cat_data)
           (mk_category (cat_name cat_data) (map file_of_row files_data)
                        (cat_created_by cat_data) (cat_created_at cat_data))
           categories)
  end.

Definition get_categories (fault : option nat) (db : database) : list (string * category) :=
  match with_connection fault
          (categories_data <- sql_select_categories ;;
           get_categories_loop categories_data []) db with
  | (inr categories, _) => categories
  | (inl _, _) => []
  end.

Definition get_category (fault : option nat) (db : database) (category_id : string)
  : option category :=
  dict_get category_id (get_categories fault db).

Definition add_file_to_category (fault : option nat) (db : database)
    (category_id : string) (fi : file_info) (now : string) : bool * database :=
  or_false (with_connection fault
    (sql_insert_file category_id fi now ;;;
     conn_commit ;;;
     ret true) db).

Fixpoint insert_files_loop (category_id : string) (fs : list file_info)
    (upload_date : string) : M unit :=
  match fs with
  | [] => ret tt
  | fi :: rest =>
      sql_insert_file category_id fi upload_date ;;;
      insert_files_loop category_id rest upload_date
  end.

Definition add_files_to_category (fault : option nat) (db : database)
    (category_id : string) (fs : list file_info) (now : string) : bool * database :=
  or_false (with_connection fault
    (insert_files_loop category_id fs now ;;;
     conn_commit ;;;
     ret true) db).

Definition delete_file (fault : option nat) (db : database)
    (category_id : string) (file_index : Z) : bool * database :=
  or_false (with_connection fault
    (file_ids <- sql_select_file_ids category_id ;;
     if Z.of_nat (length file_ids) <=? file_index then ret false else
     match py_index file_ids file_index with
     | None => raise IndexError
     | Some fid =>
         sql_delete_file_by_id fid ;;;
         conn_commit ;;;
         ret true
     end) db).

Definition delete_category (fault : option nat) (db : database)
    (category_id : string) : bool * database :=
  or_false (with_connection fault
    (sql_delete_files_of category_id ;;;
     sql_delete_category category_id ;;;
     conn_commit ;;;
     ret true) db).

(** Databases the manager can produce, starting from the empty tables that
    [init_database] creates. *)
Inductive db_reachable : database -> Prop :=
| reach_init : db_reachable empty_database
| reach_add_category f d cid nm by_ now :
    db_reachable d -> db_reachable (snd (add_category f d cid nm by_ now))
| reach_add_file f d cid fi now :
    db_reachable d -> db_reachable (snd (add_file_to_category f d cid fi now))
| reach_add_files f d cid fs now :
    db_reachable d -> db_reachable (snd (add_files_to_category f d cid fs now))
| reach_delete_file f d cid i :
    db_reachable d -> db_reachable (snd (delete_file f d cid i))
| reach_delete_category f d cid :
    db_reachable d -> db_reachable (snd (delete_category f d cid)).

(** ** Python strings *)

Fixpoint startswith (s p : string) : bool :=
  match p, s with
  | EmptyString, _ => true
  | String a p', String b s' => Ascii.eqb a b && startswith s' p'
  | String _ _, EmptyString => false
  end.

(** [s[n:]] *)
Fixpoint slice_from (n : nat) (s : string) : string :=
  match n, s with
  | O, _ => s
  | S n', String _ s' => slice_from n' s'
  | S _, EmptyString => EmptyString
  end.

(** [s[:n]] *)
Fixpoint slice_to (n : nat) (s : string) : string :=
  match n, s with
  | S n', String a s' => String a (slice_to n' s')
  | _, _ => EmptyString
  end.

(** [s.split(sep, 1)]: one or two pieces. *)
Fixpoint split_once (sep : ascii) (s : string) : list string :=
  match s with
  | EmptyString => [EmptyString]
  | String a s' =>
      if Ascii.eqb a sep then [EmptyString; s']
      else match split_once sep s' with
           | h :: t => String a h :: t
           | [] => [String a EmptyString]
           end
  end.

(** [' '.join(args)] *)
Fixpoint join_spaces (args : list string) : string :=
  match args with
  | [] => EmptyString
  | [a] => a
  | a :: rest => (a ++ " " ++ join_spaces rest)%string
  end.

(** White space as [int] skips it: tab to carriage return, space, and the
    two Latin-1 spaces U+0085 and U+00A0. *)
Definition is_space (a : ascii) : bool :=
  let n := Z.of_nat (nat_of_ascii a) in
  ((9 <=? n) && (n <=? 13)) || (n =? 32) || (n =? 133) || (n =? 160).

Definition digit_val (a : ascii) : option Z :=
  let n := Z.of_nat (nat_of_ascii a) in
  if (48 <=? n) && (n <=? 57) then Some (n - 48) else None.

Fixpoint lstrip (s : string) : string :=
  match s with
  | String a s' => if is_space a then lstrip s' else s
  | EmptyString => EmptyString
  end.

Fixpoint all_space (s : string) : bool :=
  match s with
  | String a s' => is_space a && all_space s'
  | EmptyString => true
  end.

(** The digits after the first one; a single underscore may separate two
    digits.  Returns the value and the unread rest. *)
Fixpoint parse_digits (acc : Z) (s : string) : option (Z * string) :=
  match s with
  | EmptyString => Some (acc, EmptyString)
  | String a r =>
      match digit_val a with
      | Some d => parse_digits (10 * acc + d) r
      | None =>
          if Ascii.eqb a "_" then
            match r with
            | String b r' =>
                match digit_val b with
                | Some d => parse_digits (10 * acc + d) r'
                | None => None
                end
            | EmptyString => None
            end
          else Some (acc, s)
      end
  end.

Definition parse_unsigned (s : string) : option Z :=
  match s with
  | String a r =>
      match digit_val a with
      | Some d =>
          match parse_digits d r with
          | Some (v, rest) => if all_space rest then Some v else None
          | None => None
          end
      | None => None
      end
  | EmptyString => None
  end.

(** [int(s)] for a string of at most 4300 digits, such as the callback data
    of a button, which are at most 64 bytes long; [None] stands for
    ValueError. *)
Definition py_int (s : string) : option Z :=
  match lstrip s with
  | String a r =>
      if Ascii.eqb a "-" then option_map Z.opp (parse_unsigned r)
      else if Ascii.eqb a "+" then parse_unsigned r
      else parse_unsigned (String a r)
  | EmptyString => None
  end.

(** ** FileManagerBot *)

(** [pending_uploads[user_id]] *)
Record upload_info : Type := mk_upload_info {
  upload_category_id : string;
  upload_files       : list file_info
}.

Record bot_state : Type := mk_bot_state {
  db              : database;
  pending_uploads : gmap Z upload_info
}.

(** The [Document] of an incoming message. *)
Record document : Type := mk_document {
  doc_file_id   : string;
  doc_file_name : option string;
  doc_file_size : option Z
}.

(** What a handler takes from its surroundings: the clock, the uuid drawn by
    [uuid.uuid4()], and the health of the storage during its first and second
    database call. *)
Record environment : Type := mk_environment {
  env_now    : string;
  env_uuid   : string;
  env_fault1 : option nat;
  env_fault2 : option nat
}.

(** The texts the bot sends, one constructor per message of the source. *)
Inductive message : Type :=
| MsgAdminWelcome
| MsgUserWelcome
| MsgCategoryNotFound
| MsgAdminMenu (category_name : string) (file_count : nat) (callback_data : list string)
| MsgCategoryEmpty
| MsgSendingFiles (category_name : string)
| MsgSendingFilesShort
| MsgNotAuthorized
| MsgCategoryNameMissing
| MsgCategoryCreated (category_name link category_id : string)
| MsgCreateCategoryError
| MsgCategoryIdMissing
| MsgUploadStarted (category_name : string)
| MsgFileReceived (file_name : option string) (file_count : nat)
| MsgNoUploadInProgress
| MsgNoFilesUploaded
| MsgFilesAdded (file_count : nat) (link : string)
| MsgSaveFilesError
| MsgNoCategories
| MsgCategoryList (entries : list (string * nat * string))
| MsgAddingStarted
| MsgChooseFileToDelete (buttons : list (option string * string))
| MsgFileNotFound
| MsgFileDeleted (file_name : option string)
| MsgDeleteFileError
| MsgConfirmCategoryDeletion (callback_data : list string)
| MsgCategoryDeleted (category_name : string)
| MsgDeleteCategoryError.

Inductive output : Type :=
| ReplyText (m : message)          (* update.message.reply_text *)
| EditMessageText (m : message)    (* query.edit_message_text *)
| SendDocument (doc caption : string)
| AnswerQuery.                     (* query.answer() *)

(** The result of running a handler: the exception that left it, if any, the
    state it leaves behind and what it sent. *)
Record outcome : Type := mk_outcome {
  raised : option exn;
  after  : bot_state;
  sent   : list output
}.

Definition done_with (st : bot_state) (out : list output) : outcome :=
  mk_outcome None st out.

Definition send_files (fs : list file_info) : list output :=
  map (fun fi => SendDocument (file_id fi) (caption fi)) fs.

(** [for i, file_info in enumerate(category['files'])] *)
Fixpoint enumerate_from {A} (i : nat) (l : list A) : list (nat * A) :=
  match l with
  | [] => []
  | x :: rest => (i, x) :: enumerate_from (S i) rest
  end.

(** [str(i)] for a list position. *)
Definition str_of_nat (n : nat) : string := pretty n.

Section Bot.

Variable ADMIN_IDS : list Z.
Variable BOT_USERNAME : string.

Definition is_admin (user_id : Z) : bool :=
  existsb (Z.eqb user_id) ADMIN_IDS.

Definition generate_category_link (category_id : string) : string :=
  ("https://t.me/" ++ BOT_USERNAME ++ "?start=cat_" ++ category_id)%string.

Definition handle_category_access (st : bot_state) (user_id : Z) (category_id : string)
    (env : environment) : outcome :=
  match get_category (env_fault1 env) (db st) category_id with
  | None => done_with st [ReplyText MsgCategoryNotFound]
  | Some category =>
      if is_admin user_id then
        done_with st
          [ReplyText (MsgAdminMenu (name category) (length (files category))
             [("view_" ++ category_id)%string;
              ("add_" ++ category_id)%string;
              ("delete_file_" ++ category_id)%string;
              ("delete_cat_" ++ category_id)%string])]
      else
        match files category with
        | [] => done_with st [ReplyText MsgCategoryEmpty]
        | fs => done_with st (ReplyText (MsgSendingFiles (name category)) :: send_files fs)
        end
  end.

Definition start (st : bot_state) (user_id : Z) (args : list string)
    (env : environment) : outcome :=
  match args with
  | a0 :: _ =>
      if startswith a0 "cat_" then
        handle_category_access st user_id (slice_from 4 a0) env
      else if is_admin user_id then done_with st [ReplyText MsgAdminWelcome]
      else done_with st [ReplyText MsgUserWelcome]
  | [] =>
      if is_admin user_id then done_with st [ReplyText MsgAdminWelcome]
      else done_with st [ReplyText MsgUserWelcome]
  end.

Definition new_category (st : bot_state) (user_id : Z) (args : list string)
    (env : environment) : outcome :=
  if negb (is_admin user_id) then done_with st [ReplyText MsgNotAuthorized] else
  if (length args =? 0)%nat then done_with st [ReplyText MsgCategoryNameMissing] else
  let category_name := join_spaces args in
  let category_id := slice_to 8 (env_uuid env) in
  let '(success, db') :=
    add_category (env_fault1 env) (db st) category_id category_name user_id (env_now env) in
  let st' := mk_bot_state db' (pending_uploads st) in
  if success then
    done_with st' [ReplyText (MsgCategoryCreated category_name
                                (generate_category_link category_id) category_id)]
  else done_with st' [ReplyText MsgCreateCategoryError].

Definition upload_command (st : bot_state) (user_id : Z) (args : list string)
    (env : environment) : outcome :=
  if negb (is_admin user_id) then done_with st [ReplyText MsgNotAuthorized] else
  match args with
  | [] => done_with st [ReplyText MsgCategoryIdMissing]
  | category_id :: _ =>
      match get_category (env_fault1 env) (db st) category_id with
      | None => done_with st [ReplyText MsgCategoryNotFound]
      | Some category =>
          done_with
            (mk_bot_state (db st)
               (<[user_id := mk_upload_info category_id []]> (pending_uploads st)))
            [ReplyText (MsgUploadStarted (name category))]
      end
  end.

Definition handle_document (st : bot_state) (user_id : Z) (doc : document)
    (message_caption : option string) : outcome :=
  match pending_uploads st !! user_id with
  | None => done_with st []
  | Some upload_info =>
      let fi := mk_file_info (doc_file_id doc) (doc_file_name doc) (doc_file_size doc)
                  (match message_caption with Some c => c | None => "" end) in
      let upload_info' :=
        mk_upload_info (upload_category_id upload_info)
                       (upload_files upload_info ++ [fi])%list in
      done_with
        (mk_bot_state (db st) (<[user_id := upload_info']> (pending_uploads st)))
        [ReplyText (MsgFileReceived (doc_file_name doc) (length (upload_files upload_info')))]
  end.

Definition finish_upload (st : bot_state) (user_id : Z) (env : environment) : outcome :=
  match pending_uploads st !! user_id with
  | None => done_with st [ReplyText MsgNoUploadInProgress]
  | Some upload_info =>
      let category_id := upload_category_id upload_info in
      match upload_files upload_info with
      | [] => done_with st [ReplyText MsgNoFilesUploaded]
      | fs =>
          let '(success, db') :=
            add_files_to_category (env_fault1 env) (db st) category_id fs (env_now env) in
          if success then
            done_with (mk_bot_state db' (delete user_id (pending_uploads st)))
              [ReplyText (MsgFilesAdded (length fs) (generate_category_link category_id))]
          else
            done_with (mk_bot_state db' (pending_uploads st)) [ReplyText MsgSaveFilesError]
      end
  end.

Definition categories_list (st : bot_state) (user_id : Z) (env : environment) : outcome :=
  if negb (is_admin user_id) then done_with st [ReplyText MsgNotAuthorized] else
  match get_categories (env_fault1 env) (db st) with
  | [] => done_with st [ReplyText MsgNoCategories]
  | categories =>
      done_with st
        [ReplyText (MsgCategoryList
           (map (fun '(cat_id, cat_info) =>
                   (name cat_info, length (files cat_info), generate_category_link cat_id))
                categories))]
  end.

Definition view_category_files (st : bot_state) (category_id : string)
    (env : environment) : outcome :=
  match get_category (env_fault1 env) (db st) category_id with
  | None => done_with st [EditMessageText MsgCategoryNotFound]
  | Some category =>
      match files category with
      | [] => done_with st [EditMessageText MsgCategoryEmpty]
      | fs => done_with st (EditMessageText MsgSendingFilesShort :: send_files fs)
      end
  end.

Definition start_adding_files (st : bot_state) (category_id : string) (user_id : Z)
  : outcome :=
  done_with
    (mk_bot_state (db st) (<[user_id := mk_upload_info category_id []]> (pending_uploads st)))
    [EditMessageText MsgAddingStarted].

Definition show_files_for_deletion (st : bot_state) (category_id : string)
    (env : environment) : outcome :=
  match get_category (env_fault1 env) (db st) category_id with
  | None => done_with st [EditMessageText MsgCategoryNotFound]
  | Some category =>
      match files category with
      | [] => done_with st [EditMessageText MsgCategoryEmpty]
      | fs =>
          done_with st
            [EditMessageText (MsgChooseFileToDelete
               (map (fun '(i, fi) =>
                       (file_name fi,
                        ("del_file_" ++ category_id ++ "_" ++ str_of_nat i)%string))
                    (enumerate_from 0 fs)))]
      end
  end.

Definition delete_file_from_category (st : bot_state) (category_id : string)
    (file_index : Z) (env : environment) : outcome :=
  match get_category (env_fault1 env) (db st) category_id with
  | None => done_with st [EditMessageText MsgCategoryNotFound]
  | Some category =>
      if Z.of_nat (length (files category)) <=? file_index then
        done_with st [EditMessageText MsgFileNotFound]
      else
        match py_index (files category) file_index with
        | None => mk_outcome (Some IndexError) st []
        | Some fi =>
            let deleted_file_name := file_name fi in
            let '(success, db') :=
              delete_file (env_fault2 env) (db st) category_id file_index in
            let st' := mk_bot_state db' (pending_uploads st) in
            if success then done_with st' [EditMessageText (MsgFileDeleted deleted_file_name)]
            else done_with st' [EditMessageText MsgDeleteFileError]
        end
  end.

Definition confirm_category_deletion (st : bot_state) (category_id : string) : outcome :=
  done_with st
    [EditMessageText (MsgConfirmCategoryDeletion
       [("confirm_del_cat_" ++ category_id)%string; "cancel"%string])].

Definition delete_category_handler (st : bot_state) (category_id : string)
    (env : environment) : outcome :=
  match get_category (env_fault1 env) (db st) category_id with
  | None => done_with st [EditMessageText MsgCategoryNotFound]
  | Some category =>
      let category_name := name category in
      let '(success, db') := delete_category (env_fault2 env) (db st) category_id in
      let st' := mk_bot_state db' (pending_uploads st) in
      if success then done_with st' [EditMessageText (MsgCategoryDeleted category_name)]
      else done_with st' [EditMessageText MsgDeleteCategoryError]
  end.

(** The outputs of [o] come after [pre]. *)
Definition after_sending (pre : list output) (o : outcome) : outcome :=
  mk_outcome (raised o) (after o) (pre ++ sent o)%list.

Definition button_handler (st : bot_state) (user_id : Z) (data : string)
    (env : environment) : outcome :=
  after_sending [AnswerQuery]
    (if negb (is_admin user_id) then done_with st [EditMessageText MsgNotAuthorized]
     else if startswith data "view_" then
       view_category_files st (slice_from 5 data) env
     else if startswith data "add_" then
       start_adding_files st (slice_from 4 data) user_id
     else if startswith data "delete_file_" then
       show_files_for_deletion st (slice_from 12 data) env
     else if startswith data "delete_cat_" then
       confirm_category_deletion st (slice_from 11 data)
     else if startswith data "confirm_del_cat_" then
       delete_category_handler st (slice_from 16 data) env
     else if startswith data "del_file_" then
       let parts := split_once "_" (slice_from 9 data) in
       match nth_error parts 0, nth_error parts 1 with
       | Some category_id, Some index_text =>
           match py_int index_text with
           | Some file_index => delete_file_from_category st category_id file_index env
           | None => mk_outcome (Some ValueError) st []
           end
       | _, _ => mk_outcome (Some IndexError) st []
       end
     else done_with st []).

(** The updates that [main] registers a handler for. *)
Inductive update : Type :=
| CommandStart (user_id : Z) (args : list string)
| CommandNewCategory (user_id : Z) (args : list string)
| CommandUpload (user_id : Z) (args : list string)
| CommandFinishUpload (user_id : Z)
| CommandCategories (user_id : Z)
| DocumentMessage (user_id : Z) (doc : document) (message_caption : option string)
| CallbackQuery (user_id : Z) (data : string).

Definition dispatch (st : bot_state) (u : update) (env : environment) : outcome :=
  match u with
  | CommandStart user_id args => start st user_id args env
  | CommandNewCategory user_id args => new_category st user_id args env
  | CommandUpload user_id args => upload_command st user_id args env
  | CommandFinishUpload user_id => finish_upload st user_id env
  | CommandCategories user_id => categories_list st user_id env
  | DocumentMessage user_id doc message_caption =>
      handle_document st user_id doc message_caption
  | CallbackQuery user_id data => button_handler st user_id data env
  end.

(** The bot starts on whatever database file it finds, with no upload in
    progress, and then handles one update after the other. *)
Inductive reachable : bot_state -> Prop :=
| reachable_boot d : reachable (mk_bot_state d ∅)
| reachable_update st u env :
    reachable st -> reachable (after (dispatch st u env)).

End Bot.

(** ** Properties the theorems are stated with *)

(** The table scan of [files] yields strictly ascending ids. *)
Definition files_sorted (d : database) : Prop :=
  StronglySorted Z.lt (map row_id (tbl_files d)).

(** The rows of one category, in table order. *)
Definition rows_of (d : database) (category_id : string) : list file_row :=
  List.filter (fun r => String.eqb (row_category_id r) category_id) (tbl_files d).

(** A property of databases that holds of both sides of a connection. *)
Definition conn_ok (P : database -> Prop) (c : connection) : Prop :=
  P (committed c) /\ P (working c).

Definition keeps (P : database -> Prop) {A} (m : M A) : Prop :=
  forall c, conn_ok P c -> conn_ok P (snd (m c)).

(** The rows that [insert_files_loop] adds when the largest id so far is
    [top]. *)
Fixpoint fresh_rows (top : Z) (category_id : string) (fs : list file_info)
    (upload_date : string) : list file_row :=
  match fs with
  | [] => []
  | fi :: rest =>
      mk_file_row (top + 1) category_id (file_id fi)
        (match file_name fi with Some nm => nm | None => "" end)
        (match file_size fi with Some sz => sz | None => 0 end)
        (Some (caption fi)) upload_date
      :: fresh_rows (top + 1) category_id rest upload_date
  end.

(** The largest rowid that ever existed in [files]. *)
Definition top_rowid (d : database) : Z :=
  Z.max (sqlite_sequence d) (max_rowid (tbl_files d)).

(** [z + 1, z + 2, ..., z + n] *)
Fixpoint consecutive_from (z : Z) (n : nat) : list Z :=
  match n with
  | O => []
  | S n' => (z + 1) :: consecutive_from (z + 1) n'
  end.

(** Every file has a name and a size that fits an SQLite integer. *)
Definition storable (fi : file_info) : bool :=
  match file_name fi, file_size fi with
  | Some _, Some sz => fits_int64 sz
  | _, _ => false
  end.

(** The all-or-nothing reading of [appendFiles] in which the new sequence
    values continue from the largest one of the category itself. *)
Definition continues_category_maximum (d : database) (category_id : string)
    (n : nat) (d' : database) : Prop :=
  map row_id (rows_of d' category_id) =
  (map row_id (rows_of d category_id)
     ++ consecutive_from (max_rowid (rows_of d category_id)) n)%list.

Definition append_as_stated (d : database) (category_id : string)
    (fs : list file_info) (d' : database) : Prop :=
  continues_category_maximum d category_id (length fs) d' \/ d' = d.

(** An id collision can be told from a storage failure by the result of
    [add_category]. *)
Definition conflict_distinguishable (d : database) (category_id fresh_id : string) : Prop :=
  forall fault nm by_ now,
    fst (add_category fault d fresh_id nm by_ now) = false ->
    fst (add_category None d category_id nm by_ now)
    <> fst (add_category fault d fresh_id nm by_ now).

(** The prefixes [button_handler] knows. *)
Definition known_prefix (data : string) : bool :=
  startswith data "view_" || startswith data "add_" || startswith data "delete_file_"
  || startswith data "delete_cat_" || startswith data "confirm_del_cat_"
  || startswith data "del_file_".

(** Decoding the callback data never raises. *)
Definition decoding_total (admins : list Z) (st : bot_state) (user_id : Z)
    (env : environment) : Prop :=
  forall data, raised (button_handler admins st user_id data env) = None.

(** The caller is told that the operation is not permitted. *)
Definition authorization_error (o : outcome) : Prop :=
  In (ReplyText MsgNotAuthorized) (sent o) \/ In (EditMessageText MsgNotAuthorized) (sent o).


(** ** Sample data *)

Definition sample_env : environment := mk_environment "t" "a1b2c3d4-0000" None None.
Definition failing_env : environment := mk_environment "t" "a1b2c3d4-0000" (Some 0%nat) None.

Definition doc_a : file_info := mk_file_info "h1" (Some "a.txt") (Some 10) "first".
Definition doc_b : file_info := mk_file_info "h2" (Some "b.txt") (Some 20) "".
Definition doc_c : file_info := mk_file_info "h3" (Some "c.txt") (Some 30) "third".
Definition doc_unnamed : file_info := mk_file_info "h4" None (Some 40) "".

Definition db_one_category : database :=
  snd (add_category None empty_database "a" "Docs" 1 "t0").
Definition db_two_files : database :=
  snd (add_files_to_category None db_one_category "a" [doc_a; doc_b] "t1").
Definition db_after_delete : database :=
  snd (delete_file None db_two_files "a" 0).
Definition db_interleaved : database :=
  snd (add_files_to_category None db_after_delete "a" [doc_c] "t2").

Definition db_two_categories : database :=
  snd (add_files_to_category None
         (snd (add_category None
                 (snd (add_files_to_category None db_one_category "a" [doc_a] "t1"))
                 "b" "Other" 1 "t2"))
         "b" [doc_b] "t3").

Definition boot_state : bot_state := mk_bot_state empty_database ∅.
Definition state_with_category : bot_state :=
  after (new_category [1] "bot" boot_state 1 ["Docs"] sample_env).
Definition state_collecting : bot_state :=
  after (handle_document
           (after (upload_command [1] state_with_category 1 ["a1b2c3d4"] sample_env))
           1 (mk_document "h1" (Some "a.txt") (Some 10)) (Some "first")).
Definition state_committed : bot_state :=
  after (finish_upload "bot" state_collecting 1 sample_env).
(** The admin deletes the category while the upload is still open. *)
Definition state_category_deleted : bot_state :=
  after (button_handler [1] state_collecting 1 "confirm_del_cat_a1b2c3d4" sample_env).

(** ** Histories of the database *)

(** One call of a [DatabaseManager] method that writes. *)
Inductive db_step : database -> database -> Prop :=
| step_add_category f d cid nm by_ now :
    db_step d (snd (add_category f d cid nm by_ now))
| step_add_file f d cid fi now :
    db_step d (snd (add_file_to_category f d cid fi now))
| step_add_files f d cid fs now :
    db_step d (snd (add_files_to_category f d cid fs now))
| step_delete_file f d cid i :
    db_step d (snd (delete_file f d cid i))
| step_delete_category f d cid :
    db_step d (snd (delete_category f d cid)).

(** Any number of such calls. *)
Inductive db_steps : database -> database -> Prop :=
| steps_refl d : db_steps d d
| steps_more d d' d'' : db_steps d d' -> db_step d' d'' -> db_steps d d''.

(** The category ids are pairwise different (PRIMARY KEY). *)
Definition unique_categories (d : database) : Prop :=
  List.NoDup (map cat_id (tbl_categories d)).

(** Every id in [files] is positive and at most the AUTOINCREMENT counter. *)
Definition ids_bounded (d : database) : Prop :=
  Forall (fun r => 0 < row_id r <= sqlite_sequence d) (tbl_files d).

(** Some row of [files] carries the id [i]. *)
Definition id_in_use (d : database) (i : Z) : Prop :=
  exists r, In r (tbl_files d) /\ row_id r = i.

(** Every row of [d'] was in [d] or is numbered above the counter of [d]. *)
Definition grown_from (d d' : database) : Prop :=
  sqlite_sequence d <= sqlite_sequence d'
  /\ forall r, In r (tbl_files d') -> In r (tbl_files d) \/ sqlite_sequence d < row_id r.

(** What [get_categories] builds for one row of [categories]. *)
Definition category_entry (d : database) (c : category_row) : string * category :=
  (cat_id c,
   mk_category (cat_name c) (map file_of_row (rows_of d (cat_id c)))
               (cat_created_by c) (cat_created_at c)).

(** The full listing: one entry per category, in table order. *)
Definition category_listing (d : database) : list (string * category) :=
  map (category_entry d) (tbl_categories d).

(** [l] without its element at position [n]. *)
Fixpoint remove_at {A} (n : nat) (l : list A) : list A :=
  match n, l with
  | _, [] => []
  | O, _ :: rest => rest
  | S n', x :: rest => x :: remove_at n' rest
  end.

(** The store answers [n] statements in a row. *)
Definition serves (fault : option nat) (n : nat) : bool :=
  match fault with
  | None => true
  | Some k => (n <=? k)%nat
  end.

(** The database without a category and without the files keyed to it. *)
Definition without_category (d : database) (category_id : string) : database :=
  mk_database
    (List.filter (fun c => negb (String.eqb (cat_id c) category_id)) (tbl_categories d))
    (List.filter (fun r => negb (String.eqb (row_category_id r) category_id)) (tbl_files d))
    (sqlite_sequence d).

(** The dict [handle_document] builds from a message. *)
Definition file_info_of (doc : document) (message_caption : option string) : file_info :=
  mk_file_info (doc_file_id doc) (doc_file_name doc) (doc_file_size doc)
               (match message_caption with Some c => c | None => "" end).

(** The same caller sends one document message after the other. *)
Definition submit_documents (st : bot_state) (user_id : Z)
    (messages : list (document * option string)) : bot_state :=
  fold_left (fun s m => after (handle_document s user_id (fst m) (snd m))) messages st.

(** The character occurs in the string. *)
Fixpoint has_char (a : ascii) (s : string) : bool :=
  match s with
  | EmptyString => false
  | String b s' => Ascii.eqb b a || has_char a s'
  end.

(** ** load_config *)

(** [s.replace(' ', ',')] *)
Fixpoint replace_spaces (s : string) : string :=
  match s with
  | EmptyString => EmptyString
  | String a s' =>
      String (if Ascii.eqb a " " then ","%char else a) (replace_spaces s')
  end.

(** [s.split(sep)] *)
Fixpoint split_all (sep : ascii) (s : string) : list string :=
  match s with
  | EmptyString => [EmptyString]
  | String a s' =>
      if Ascii.eqb a sep then EmptyString :: split_all sep s'
      else match split_all sep s' with
           | h :: t => String a h :: t
           | [] => [String a EmptyString]
           end
  end.

(** White space as [str.strip] removes it: the characters [int] skips and
    the four separators U+001C to U+001F. *)
Definition is_str_space (a : ascii) : bool :=
  let n := Z.of_nat (nat_of_ascii a) in
  is_space a || ((28 <=? n) && (n <=? 31)).

Fixpoint lstrip_str (s : string) : string :=
  match s with
  | String a s' => if is_str_space a then lstrip_str s' else s
  | EmptyString => EmptyString
  end.

Fixpoint rstrip_str (s : string) : string :=
  match s with
  | EmptyString => EmptyString
  | String a s' =>
      match rstrip_str s' with
      | EmptyString => if is_str_space a then EmptyString else String a EmptyString
      | r => String a r
      end
  end.

(** [s.strip()] *)
Definition strip (s : string) : string := rstrip_str (lstrip_str s).

(** The number of decimal digits in a string. *)
Fixpoint digit_count (s : string) : nat :=
  match s with
  | EmptyString => O
  | String a s' =>
      match digit_val a with
      | Some _ => S (digit_count s')
      | None => digit_count s'
      end
  end.

(** [sys.get_int_max_str_digits()] *)
Definition INT_MAX_STR_DIGITS : nat := 4300.

(** [int(s)] for any string: a string with more digits than the limit is
    refused with ValueError. *)
Definition py_int_limited (s : string) : option Z :=
  if (INT_MAX_STR_DIGITS <? digit_count s)%nat then None else py_int s.

(** [[int(id.strip()) for id in pieces if id.strip()]]; [None] stands for the
    ValueError of the first piece that is not a number. *)
Fixpoint ints_of_pieces (pieces : list string) : option (list Z) :=
  match pieces with
  | [] => Some []
  | piece :: rest =>
      match strip piece with
      | EmptyString => ints_of_pieces rest
      | text =>
          match py_int_limited text with
          | None => None
          | Some z => option_map (cons z) (ints_of_pieces rest)
          end
      end
  end.

(** The admin ids read from the variable ADMIN_IDS: the first block of
    [load_config].  A ValueError leaves the list empty. *)
Definition admin_ids_from_env (admin_ids_str : option string) : list Z :=
  match admin_ids_str with
  | None => []
  | Some EmptyString => []
  | Some text =>
      match ints_of_pieces (split_all "," (replace_spaces text)) with
      | Some ids => ids
      | None => []
      end
  end.

(** A Python value as [json.load] builds it.  A float is kept only by
    whether it is zero, which is all its truth value depends on; the keys of
    a dict are distinct. *)
#[warnings="-register-all"]
Inductive py_value : Type :=
| PyNone
| PyBool (b : bool)
| PyInt (z : Z)
| PyFloat (is_zero : bool)
| PyStr (s : string)
| PyList (items : list py_value)
| PyDict (items : list (string * py_value)).

(** [bool(v)] *)
Definition truthy (v : py_value) : bool :=
  match v with
  | PyNone => false
  | PyBool b => b
  | PyInt z => negb (z =? 0)
  | PyFloat is_zero => negb is_zero
  | PyStr s => match s with EmptyString => false | _ => true end
  | PyList items => match items with [] => false | _ => true end
  | PyDict items => match items with [] => false | _ => true end
  end.

(** What [load_config] finds where it looks for config.json: no file, a file
    that cannot be opened or is not JSON, or a file and the value
    [json.load] reads from it. *)
Inductive config_json : Type :=
| NoConfigFile
| BrokenConfigFile
| ConfigFile (config : py_value).

(** [config.get('admin_ids', [])]; [None] stands for the AttributeError of a
    value that is not a dict. *)
Definition config_admin_ids (config : py_value) : option py_value :=
  match config with
  | PyDict items =>
      Some (match dict_get "admin_ids" items with
            | Some v => v
            | None => PyList []
            end)
  | _ => None
  end.

(** The result of [load_config]: what it returns, or [None] for the
    ValueError it raises, and whether it went to write the sample
    config.json. *)
Record load_outcome : Type := mk_load_outcome {
  loaded       : option (string * string * py_value);
  wrote_sample : bool
}.

Definition load_config (bot_token bot_username admin_ids_str : option string)
    (config : config_json) : load_outcome :=
  let admin_ids := PyList (map PyInt (admin_ids_from_env admin_ids_str)) in
  let '(admin_ids, wrote) :=
    if truthy admin_ids then (admin_ids, false)
    else
      match config with
      | ConfigFile c =>
          (match config_admin_ids c with
           | Some v => v
           | None => admin_ids
           end, false)
      | NoConfigFile => (admin_ids, true)
      | BrokenConfigFile => (admin_ids, false)
      end in
  match bot_token with
  | None | Some EmptyString => mk_load_outcome None wrote
  | Some token =>
      match bot_username with
      | None | Some EmptyString => mk_load_outcome None wrote
      | Some username =>
          if truthy admin_ids
          then mk_load_outcome (Some (token, username, admin_ids)) wrote
          else mk_load_outcome None wrote
      end
  end.

(** [sep.join(pieces)] *)
Fixpoint join_with (sep : ascii) (pieces : list string) : string :=
  match pieces with
  | [] => EmptyString
  | [piece] => piece
  | piece :: rest => (piece ++ String sep (join_with sep rest))%string
  end.

(** Every character is a decimal digit. *)
Fixpoint all_digits (s : string) : bool :=
  match s with
  | EmptyString => true
  | String a s' =>
      match digit_val a with Some _ => all_digits s' | None => false end
  end.



(** * Theorems *)

(** ** Rows in id order *)

Lemma row_id_le_max_rowid (rows : list file_row) (r : file_row) :
  In r rows -> row_id r <= max_rowid rows.
Proof.
  induction rows as [|r' rows IH]; simpl; [tauto|].
  intros [->|Hin]; [lia|]. specialize (IH Hin). lia.
Qed.

Lemma max_rowid_nonneg (rows : list file_row) : 0 <= max_rowid rows.
Proof. induction rows; simpl; lia. Qed.

Lemma btree_insert_last (r : file_row) (rows : list file_row) :
  max_rowid rows < row_id r -> btree_insert r rows = (rows ++ [r])%list.
Proof.
  induction rows as [|r' rows IH]; simpl; intros Hlt; [reflexivity|].
  destruct (row_id r <? row_id r') eqn:E.
  - apply Z.ltb_lt in E. lia.
  - f_equal. apply IH. lia.
Qed.

Lemma max_rowid_app (rows more : list file_row) :
  max_rowid (rows ++ more) = Z.max (max_rowid rows) (max_rowid more).
Proof.
  induction rows as [|r rows IH]; simpl.
  - pose proof (max_rowid_nonneg more). lia.
  - rewrite IH. lia.
Qed.

Lemma sorted_snoc (ids : list Z) (z : Z) :
  StronglySorted Z.lt ids -> Forall (fun i => i < z) ids ->
  StronglySorted Z.lt (ids ++ [z]).
Proof.
  induction 1 as [|i ids Hs IH Hall]; simpl; intros Hlt.
  - repeat constructor.
  - inversion Hlt as [|? ? Hi Hrest]; subst.
    constructor; [apply IH; exact Hrest|].
    apply Forall_app; split; [exact Hall|]. repeat constructor. exact Hi.
Qed.

Lemma sorted_filter (f : file_row -> bool) (rows : list file_row) :
  StronglySorted Z.lt (map row_id rows) ->
  StronglySorted Z.lt (map row_id (List.filter f rows)).
Proof.
  induction rows as [|r rows IH]; simpl; intros Hs; [constructor|].
  inversion Hs as [|? ? Hs' Hall]; subst.
  destruct (f r); simpl; [|apply IH; exact Hs'].
  constructor; [apply IH; exact Hs'|].
  rewrite List.Forall_forall in *. intros i Hi.
  apply in_map_iff in Hi as (r' & <- & Hr').
  apply filter_In in Hr' as [Hr' _].
  apply Hall. apply in_map. exact Hr'.
Qed.

Lemma sorted_insert_fresh (r : file_row) (rows : list file_row) :
  StronglySorted Z.lt (map row_id rows) -> max_rowid rows < row_id r ->
  StronglySorted Z.lt (map row_id (btree_insert r rows)).
Proof.
  intros Hs Hlt. rewrite btree_insert_last by exact Hlt.
  rewrite map_app. simpl. apply sorted_snoc; [exact Hs|].
  rewrite List.Forall_forall. intros i Hi.
  apply in_map_iff in Hi as (r' & <- & Hr').
  pose proof (row_id_le_max_rowid _ _ Hr'). lia.
Qed.

Lemma btree_insert_head (r : file_row) (rows : list file_row) :
  Forall (fun i => row_id r < i) (map row_id rows) ->
  btree_insert r rows = r :: rows.
Proof.
  destruct rows as [|r' rows]; simpl; [reflexivity|].
  intros H. inversion H as [|? ? Hlt _]; subst.
  apply Z.ltb_lt in Hlt. rewrite Hlt. reflexivity.
Qed.

(** [ORDER BY id] leaves a scan that is already in id order as it is. *)
Lemma order_by_id_sorted (rows : list file_row) :
  StronglySorted Z.lt (map row_id rows) -> order_by_id rows = rows.
Proof.
  induction rows as [|r rows IH]; simpl; intros Hs; [reflexivity|].
  inversion Hs as [|? ? Hs' Hall]; subst.
  unfold order_by_id in *. simpl. rewrite IH by exact Hs'.
  apply btree_insert_head. exact Hall.
Qed.

(** ** Connections *)

Lemma bind_inr {A B} (m : M A) (k : A -> M B) c a c' :
  m c = (inr a, c') -> bind m k c = k a c'.
Proof. intros H. unfold bind. rewrite H. reflexivity. Qed.

Lemma bind_inl {A B} (m : M A) (k : A -> M B) c e c' :
  m c = (inl e, c') -> bind m k c = (inl e, c').
Proof. intros H. unfold bind. rewrite H. reflexivity. Qed.

Lemma keeps_ret (P : database -> Prop) {A} (a : A) : keeps P (ret a).
Proof. intros c H. exact H. Qed.

Lemma keeps_raise (P : database -> Prop) {A} (e : exn) : keeps P (@raise A e).
Proof. intros c H. exact H. Qed.

Lemma keeps_bind (P : database -> Prop) {A B} (m : M A) (k : A -> M B) :
  keeps P m -> (forall a, keeps P (k a)) -> keeps P (bind m k).
Proof.
  intros Hm Hk c Hc. unfold bind. specialize (Hm c Hc).
  destruct (m c) as [[e|a] c']; simpl in *; [exact Hm|].
  apply Hk. exact Hm.
Qed.

Lemma keeps_storage_step (P : database -> Prop) : keeps P storage_step.
Proof.
  intros c H. unfold storage_step. destruct (budget c) as [[|k]|]; simpl; exact H.
Qed.

Lemma keeps_conn_commit (P : database -> Prop) : keeps P conn_commit.
Proof.
  intros c [Hc Hw]. unfold conn_commit, bind, storage_step.
  destruct (budget c) as [[|k]|]; simpl; split; assumption.
Qed.

(** A statement that replaces the working tables by [f] of them. *)
Lemma keeps_update (P : database -> Prop) (f : database -> database) :
  (forall d, P d -> P (f d)) ->
  keeps P (storage_step ;;; d <- read_db ;; write_db (f d)).
Proof.
  intros Hf c [Hc Hw]. unfold conn_ok, bind, storage_step, read_db, write_db.
  destruct (budget c) as [[|k]|]; simpl; split; auto.
Qed.

Lemma keeps_with_connection (P : database -> Prop) {A} (fault : option nat)
    (body : M A) (d : database) :
  keeps P body -> P d -> P (snd (with_connection fault body d)).
Proof.
  intros Hb Hd. unfold with_connection.
  specialize (Hb (mk_connection d d fault) (conj Hd Hd)).
  destruct (body _) as [[e|a] c]; simpl in *; destruct Hb; assumption.
Qed.

Lemma snd_or_false (r : (exn + bool) * database) : snd (or_false r) = snd r.
Proof. destruct r as [[e|b] d]; reflexivity. Qed.

Lemma keeps_sorted_insert_category cid nm by_ now :
  keeps files_sorted (sql_insert_category cid nm by_ now).
Proof.
  unfold sql_insert_category. destruct (negb (fits_int64 by_)); [apply keeps_raise|].
  intros c [Hc Hw]. unfold conn_ok, bind, storage_step, read_db, write_db, raise.
  destruct (budget c) as [[|k]|]; simpl; try (split; assumption);
    destruct (existsb _ _); simpl; split; assumption.
Qed.

Lemma keeps_sorted_insert_file cid fi now :
  keeps files_sorted (sql_insert_file cid fi now).
Proof.
  unfold sql_insert_file.
  destruct (match file_size fi with Some sz => negb (fits_int64 sz) | None => false end);
    [apply keeps_raise|].
  assert (Hstep : forall d, files_sorted d ->
            forall nm sz, files_sorted
              (mk_database (tbl_categories d)
                 (btree_insert
                    (mk_file_row (Z.max (sqlite_sequence d) (max_rowid (tbl_files d)) + 1)
                       cid (file_id fi) nm sz (Some (caption fi)) now) (tbl_files d))
                 (Z.max (sqlite_sequence d) (max_rowid (tbl_files d)) + 1))).
  { intros d Hd nm sz. unfold files_sorted in *. simpl.
    apply sorted_insert_fresh; [exact Hd|]. simpl. lia. }
  intros c [Hc Hw]. unfold conn_ok, bind, storage_step, read_db, write_db, raise.
  destruct (budget c) as [[|k]|]; simpl; try (split; assumption);
    destruct (INT64_MAX <=? _); simpl; try (split; assumption);
    destruct (file_name fi), (file_size fi); simpl; split; auto.
Qed.

Lemma keeps_sorted_insert_files cid fs now :
  keeps files_sorted (insert_files_loop cid fs now).
Proof.
  induction fs as [|fi fs IH]; simpl; [apply keeps_ret|].
  apply keeps_bind; [apply keeps_sorted_insert_file|]. intros _. exact IH.
Qed.

Lemma files_sorted_filter (d : database) cats (f : file_row -> bool) z :
  files_sorted d -> files_sorted (mk_database cats (List.filter f (tbl_files d)) z).
Proof. unfold files_sorted. simpl. apply sorted_filter. Qed.

Lemma files_sorted_same_files (d : database) cats z :
  files_sorted d -> files_sorted (mk_database cats (tbl_files d) z).
Proof. unfold files_sorted. simpl. tauto. Qed.

(** Every database the manager produces keeps [files] in strictly ascending
    id order. *)
Lemma db_reachable_sorted (d : database) : db_reachable d -> files_sorted d.
Proof.
  induction 1 as [|f d cid nm by_ now _ IH|f d cid fi now _ IH|f d cid fs now _ IH
                  |f d cid i _ IH|f d cid _ IH].
  - constructor.
  - unfold add_category. rewrite snd_or_false.
    apply keeps_with_connection; [|exact IH].
    apply keeps_bind; [apply keeps_sorted_insert_category|]. intros _.
    apply keeps_bind; [apply keeps_conn_commit|]. intros _. apply keeps_ret.
  - unfold add_file_to_category. rewrite snd_or_false.
    apply keeps_with_connection; [|exact IH].
    apply keeps_bind; [apply keeps_sorted_insert_file|]. intros _.
    apply keeps_bind; [apply keeps_conn_commit|]. intros _. apply keeps_ret.
  - unfold add_files_to_category. rewrite snd_or_false.
    apply keeps_with_connection; [|exact IH].
    apply keeps_bind; [apply keeps_sorted_insert_files|]. intros _.
    apply keeps_bind; [apply keeps_conn_commit|]. intros _. apply keeps_ret.
  - unfold delete_file. rewrite snd_or_false.
    apply keeps_with_connection; [|exact IH].
    apply keeps_bind.
    + unfold sql_select_file_ids.
      apply keeps_bind; [apply keeps_storage_step|]. intros _.
      intros c Hc. exact Hc.
    + intros ids. destruct (Z.of_nat (length ids) <=? i); [apply keeps_ret|].
      destruct (py_index ids i) as [fid|]; [|apply keeps_raise].
      apply keeps_bind.
      * unfold sql_delete_file_by_id.
        apply (keeps_update files_sorted
                 (fun d => mk_database (tbl_categories d)
                             (List.filter (fun r => negb (row_id r =? fid)) (tbl_files d))
                             (sqlite_sequence d))).
        intros d0 H0. apply files_sorted_filter. exact H0.
      * intros _. apply keeps_bind; [apply keeps_conn_commit|]. intros _. apply keeps_ret.
  - unfold delete_category. rewrite snd_or_false.
    apply keeps_with_connection; [|exact IH].
    apply keeps_bind.
    + unfold sql_delete_files_of.
      apply (keeps_update files_sorted
               (fun d => mk_database (tbl_categories d)
                           (List.filter (fun r => negb (String.eqb (row_category_id r) cid))
                                        (tbl_files d))
                           (sqlite_sequence d))).
      intros d0 H0. apply files_sorted_filter. exact H0.
    + intros _. apply keeps_bind.
      * unfold sql_delete_category.
        apply (keeps_update files_sorted
                 (fun d => mk_database
                             (List.filter (fun c => negb (String.eqb (cat_id c) cid))
                                          (tbl_categories d))
                             (tbl_files d) (sqlite_sequence d))).
        intros d0 H0. apply files_sorted_same_files. exact H0.
      * intros _. apply keeps_bind; [apply keeps_conn_commit|]. intros _. apply keeps_ret.
Qed.

(** ** Reading categories *)






(** ** Appending files *)

Lemma fresh_rows_ids top cid fs now :
  map row_id (fresh_rows top cid fs now) = consecutive_from top (length fs).
Proof.
  revert top. induction fs as [|fi fs IH]; intros top; simpl; [reflexivity|].
  f_equal. apply IH.
Qed.

Lemma fresh_rows_category top cid fs now :
  Forall (fun r => row_category_id r = cid) (fresh_rows top cid fs now).
Proof.
  revert top. induction fs as [|fi fs IH]; intros top; simpl; constructor; auto.
Qed.

Lemma fresh_rows_contents top cid fs now :
  forallb storable fs = true -> map file_of_row (fresh_rows top cid fs now) = fs.
Proof.
  revert top. induction fs as [|fi fs IH]; intros top; simpl; [reflexivity|].
  intros H. apply andb_true_iff in H as [Hfi Hfs].
  rewrite IH by exact Hfs. f_equal.
  unfold storable in Hfi. destruct fi as [h [nm|] [sz|] cap]; simpl in *; try discriminate.
  reflexivity.
Qed.

Lemma rows_of_app_fresh (d : database) cats z top cid fs now :
  rows_of (mk_database cats (tbl_files d ++ fresh_rows top cid fs now) z) cid
  = (rows_of d cid ++ fresh_rows top cid fs now)%list.
Proof.
  unfold rows_of. simpl. rewrite List.filter_app. f_equal.
  pose proof (fresh_rows_category top cid fs now) as H.
  induction H as [|r rows Hr _ IH]; simpl; [reflexivity|].
  rewrite Hr, String.eqb_refl, IH. reflexivity.
Qed.

Lemma rows_of_app_other (d : database) cats z top cid other fs now :
  other <> cid ->
  rows_of (mk_database cats (tbl_files d ++ fresh_rows top cid fs now) z) other
  = rows_of d other.
Proof.
  intros Hne. unfold rows_of. simpl. rewrite List.filter_app.
  pose proof (fresh_rows_category top cid fs now) as H.
  replace (List.filter _ (fresh_rows top cid fs now)) with (@nil file_row);
    [apply app_nil_r|].
  induction H as [|r rows Hr _ IH]; simpl; [reflexivity|].
  rewrite Hr. destruct (String.eqb cid other) eqn:E; [|exact IH].
  apply String.eqb_eq in E. congruence.
Qed.

(** One [INSERT INTO files]: it either raises and leaves the committed
    tables alone, or appends one row numbered [top_rowid + 1]. *)
Lemma sql_insert_file_run cid fi now (c : connection) :
  (exists e c', sql_insert_file cid fi now c = (inl e, c')
                /\ committed c' = committed c)
  \/ (exists c', sql_insert_file cid fi now c = (inr tt, c')
                 /\ committed c' = committed c
                 /\ storable fi = true
                 /\ working c' =
                      mk_database (tbl_categories (working c))
                        (tbl_files (working c)
                           ++ fresh_rows (top_rowid (working c)) cid [fi] now)
                        (top_rowid (working c) + 1)).
Proof.
  unfold sql_insert_file, storable, top_rowid.
  destruct fi as [h nm sz cap]; simpl.
  destruct sz as [sz|]; [destruct (fits_int64 sz) eqn:Hfit|]; simpl;
    unfold bind, storage_step, read_db, write_db, raise;
    try (left; eauto; fail);
    destruct (budget c) as [[|k]|]; simpl; try (left; eauto; fail);
    destruct (INT64_MAX <=? _) eqn:Hfull; simpl; try (left; eauto; fail);
    destruct nm as [nm|]; simpl; try (left; eauto; fail).
  - right. eexists. repeat split. simpl. f_equal.
    apply btree_insert_last. simpl. lia.
  - right. eexists. repeat split. simpl. f_equal.
    apply btree_insert_last. simpl. lia.
Qed.

Lemma top_rowid_after_insert cats rows more z :
  max_rowid rows <= z -> max_rowid more <= z ->
  top_rowid (mk_database cats (rows ++ more) z) = z.
Proof.
  intros H1 H2. unfold top_rowid. simpl. rewrite max_rowid_app. lia.
Qed.

Lemma insert_files_loop_run cid now (fs : list file_info) :
  forall c : connection,
  (exists e c', insert_files_loop cid fs now c = (inl e, c')
                /\ committed c' = committed c)
  \/ (exists c', insert_files_loop cid fs now c = (inr tt, c')
                 /\ committed c' = committed c
                 /\ forallb storable fs = true
                 /\ working c' =
                      mk_database (tbl_categories (working c))
                        (tbl_files (working c)
                           ++ fresh_rows (top_rowid (working c)) cid fs now)
                        (match fs with
                         | [] => sqlite_sequence (working c)
                         | _ => top_rowid (working c) + Z.of_nat (length fs)
                         end)).
Proof.
  induction fs as [|fi fs IH]; intros c; simpl.
  - right. exists c. unfold ret. repeat split.
    rewrite app_nil_r. destruct (working c); reflexivity.
  - destruct (sql_insert_file_run cid fi now c)
      as [(e & c1 & Hrun & Hc)|(c1 & Hrun & Hc & Hst & Hw)].
    { left. exists e, c1. rewrite (bind_inl _ _ _ _ _ Hrun). auto. }
    rewrite (bind_inr _ _ _ _ _ Hrun).
    destruct (IH c1) as [(e & c2 & Hrun2 & Hc2)|(c2 & Hrun2 & Hc2 & Hall & Hw2)].
    + left. exists e, c2. split; [exact Hrun2|congruence].
    + right. exists c2. split; [exact Hrun2|]. split; [congruence|].
      split.
      * rewrite Hst, Hall. reflexivity.
      * rewrite Hw2, Hw. simpl tbl_categories. simpl tbl_files. simpl sqlite_sequence.
        assert (Htop : top_rowid
                         (mk_database (tbl_categories (working c))
                            (tbl_files (working c)
                               ++ fresh_rows (top_rowid (working c)) cid [fi] now)
                            (top_rowid (working c) + 1))
                       = top_rowid (working c) + 1).
        { pose proof (max_rowid_nonneg (tbl_files (working c))).
          apply top_rowid_after_insert; unfold top_rowid; simpl; lia. }
        rewrite Htop. rewrite <- app_assoc. simpl. f_equal.
        destruct fs; simpl length; lia.
Qed.

(** What [add_files_to_category] does to the database, in full. *)
Lemma add_files_to_category_run fault d cid fs now :
  add_files_to_category fault d cid fs now = (false, d)
  \/ (forallb storable fs = true
      /\ add_files_to_category fault d cid fs now =
           (true, mk_database (tbl_categories d)
                    (tbl_files d ++ fresh_rows (top_rowid d) cid fs now)
                    (match fs with
                     | [] => sqlite_sequence d
                     | _ => top_rowid d + Z.of_nat (length fs)
                     end))).
Proof.
  unfold add_files_to_category, with_connection.
  destruct (insert_files_loop_run cid now fs (mk_connection d d fault))
    as [(e & c' & Hrun & Hc)|(c' & Hrun & Hc & Hall & Hw)]; simpl in *.
  - left. rewrite (bind_inl _ _ _ _ _ Hrun). simpl. rewrite Hc. reflexivity.
  - rewrite (bind_inr _ _ _ _ _ Hrun).
    unfold bind, conn_commit, bind, storage_step, ret.
    destruct (budget c') as [[|k]|]; simpl.
    + left. rewrite Hc. reflexivity.
    + right. split; [exact Hall|]. rewrite Hw. reflexivity.
    + right. split; [exact Hall|]. rewrite Hw. reflexivity.
Qed.

Lemma sql_insert_file_healthy cid fi now (c : connection) :
  budget c = None -> storable fi = true -> top_rowid (working c) < INT64_MAX ->
  exists c', sql_insert_file cid fi now c = (inr tt, c')
             /\ budget c' = None
             /\ top_rowid (working c') = top_rowid (working c) + 1.
Proof.
  intros Hb Hst Htop.
  destruct (sql_insert_file_run cid fi now c)
    as [(e & c' & Hrun & _)|(c' & Hrun & _ & _ & Hw)].
  - exfalso. revert Hrun. unfold sql_insert_file, storable, top_rowid in *.
    destruct (file_name fi), (file_size fi) as [sz|]; try discriminate.
    rewrite Hst. simpl. unfold bind, storage_step, read_db, write_db, raise.
    rewrite Hb. simpl.
    destruct (INT64_MAX <=? _) eqn:E; [apply Z.leb_le in E; lia|discriminate].
  - exists c'. split; [exact Hrun|]. split.
    + revert Hrun. unfold sql_insert_file, storable in *.
      destruct (file_name fi), (file_size fi) as [sz|]; try discriminate.
      rewrite Hst. simpl. unfold bind, storage_step, read_db, write_db, raise.
      rewrite Hb. simpl. destruct (INT64_MAX <=? _); [discriminate|].
      intros [= <-]. simpl. exact Hb.
    + rewrite Hw. pose proof (max_rowid_nonneg (tbl_files (working c))).
      apply top_rowid_after_insert; unfold top_rowid; simpl; lia.
Qed.

Lemma insert_files_loop_healthy cid now (fs : list file_info) :
  forall c : connection,
  budget c = None -> forallb storable fs = true ->
  top_rowid (working c) + Z.of_nat (length fs) <= INT64_MAX ->
  exists c', insert_files_loop cid fs now c = (inr tt, c') /\ budget c' = None.
Proof.
  induction fs as [|fi fs IH]; intros c Hb Hall Htop; simpl.
  - exists c. split; [reflexivity|exact Hb].
  - simpl in Hall. apply andb_true_iff in Hall as [Hfi Hfs].
    simpl length in Htop.
    destruct (sql_insert_file_healthy cid fi now c Hb Hfi) as (c1 & Hrun & Hb1 & Ht1);
      [lia|].
    rewrite (bind_inr _ _ _ _ _ Hrun).
    apply IH; [exact Hb1|exact Hfs|]. rewrite Ht1. lia.
Qed.

(** On a healthy store, files that have a name and a size are always
    appended, as long as the id counter has room. *)
Lemma add_files_to_category_succeeds d cid fs now :
  forallb storable fs = true ->
  top_rowid d + Z.of_nat (length fs) <= INT64_MAX ->
  fst (add_files_to_category None d cid fs now) = true.
Proof.
  intros Hall Htop. unfold add_files_to_category, with_connection.
  destruct (insert_files_loop_healthy cid now fs (mk_connection d d None))
    as (c' & Hrun & Hb); simpl; auto.
  rewrite (bind_inr _ _ _ _ _ Hrun).
  unfold bind, conn_commit, bind, storage_step, ret. rewrite Hb. reflexivity.
Qed.

(** C2 (as amended).  [add_files_to_category] with a non-empty list of N
    files is all-or-nothing.  Either it returns [True] and all N rows are in
    the table, after the rows that were there, in the order of the list and
    with the contents of the list, numbered with the N consecutive ids that
    follow the largest id the table ever held (so above every id of the
    category, but not necessarily next to the category's own maximum); or it
    returns [False] and the database is what it was. *)
Theorem add_files_to_category_all_or_nothing fault d cid fs now :
  fs <> [] ->
  let r := add_files_to_category fault d cid fs now in
  let rows := fresh_rows (top_rowid d) cid fs now in
  (fst r = true
   /\ tbl_categories (snd r) = tbl_categories d
   /\ tbl_files (snd r) = (tbl_files d ++ rows)%list
   /\ rows_of (snd r) cid = (rows_of d cid ++ rows)%list
   /\ (forall other, other <> cid -> rows_of (snd r) other = rows_of d other)
   /\ map file_of_row rows = fs
   /\ map row_id rows = consecutive_from (top_rowid d) (length fs)
   /\ Forall (fun r0 => row_id r0 <= top_rowid d) (tbl_files d)
   /\ sqlite_sequence (snd r) = top_rowid d + Z.of_nat (length fs))
  \/ (fst r = false /\ snd r = d).
Proof.
  intros Hne r rows. subst r rows.
  destruct (add_files_to_category_run fault d cid fs now) as [->|[Hall ->]];
    [right; split; reflexivity|].
  left. simpl. repeat split.
  - apply rows_of_app_fresh.
  - intros other Hother. apply rows_of_app_other. exact Hother.
  - apply fresh_rows_contents. exact Hall.
  - apply fresh_rows_ids.
  - rewrite List.Forall_forall. intros r0 Hin.
    pose proof (row_id_le_max_rowid _ _ Hin). unfold top_rowid. lia.
  - destruct fs; [congruence|reflexivity].
Qed.

(** The theorem at work: two files appended to a category that holds
    none. *)
Lemma add_files_to_category_all_or_nothing_witness :
  [doc_a; doc_b] <> []
  /\ ((fst (add_files_to_category None db_one_category "a" [doc_a; doc_b] "t1") = true
       /\ tbl_categories (snd (add_files_to_category None db_one_category "a" [doc_a; doc_b] "t1"))
          = tbl_categories db_one_category
       /\ tbl_files (snd (add_files_to_category None db_one_category "a" [doc_a; doc_b] "t1"))
          = (tbl_files db_one_category
               ++ fresh_rows (top_rowid db_one_category) "a" [doc_a; doc_b] "t1")%list
       /\ rows_of (snd (add_files_to_category None db_one_category "a" [doc_a; doc_b] "t1")) "a"
          = (rows_of db_one_category "a"
               ++ fresh_rows (top_rowid db_one_category) "a" [doc_a; doc_b] "t1")%list
       /\ (forall other, other <> "a" ->
             rows_of (snd (add_files_to_category None db_one_category "a" [doc_a; doc_b] "t1")) other
             = rows_of db_one_category other)
       /\ map file_of_row (fresh_rows (top_rowid db_one_category) "a" [doc_a; doc_b] "t1")
          = [doc_a; doc_b]
       /\ map row_id (fresh_rows (top_rowid db_one_category) "a" [doc_a; doc_b] "t1")
          = consecutive_from (top_rowid db_one_category) (length [doc_a; doc_b])
       /\ Forall (fun r0 => row_id r0 <= top_rowid db_one_category) (tbl_files db_one_category)
       /\ sqlite_sequence (snd (add_files_to_category None db_one_category "a" [doc_a; doc_b] "t1"))
          = top_rowid db_one_category + Z.of_nat (length [doc_a; doc_b]))
      \/ (fst (add_files_to_category None db_one_category "a" [doc_a; doc_b] "t1") = false
          /\ snd (add_files_to_category None db_one_category "a" [doc_a; doc_b] "t1")
             = db_one_category)).
Proof.
  assert (H : [doc_a; doc_b] <> []) by discriminate.
  split; [exact H|].
  exact (add_files_to_category_all_or_nothing None db_one_category "a" [doc_a; doc_b] "t1" H).
Defined.

(** A store that fails after two of three inserts: the two rows written
    inside the transaction are rolled back with it. *)
Example add_files_rolled_back :
  fst (insert_files_loop "a" [doc_a; doc_b; doc_c] "t1"
         (mk_connection db_one_category db_one_category (Some 2%nat)))
    = inl OperationalError
  /\ length (tbl_files (working (snd (insert_files_loop "a" [doc_a; doc_b; doc_c] "t1"
         (mk_connection db_one_category db_one_category (Some 2%nat)))))) = 2%nat
  /\ add_files_to_category (Some 2%nat) db_one_category "a" [doc_a; doc_b; doc_c] "t1"
     = (false, db_one_category).
Proof. repeat split. Qed.

(** A file without a name breaks the NOT NULL constraint at the third
    insert; nothing is kept. *)
Example add_files_rejected_by_constraint :
  add_files_to_category None db_one_category "a" [doc_a; doc_b; doc_unnamed] "t1"
  = (false, db_one_category).
Proof. reflexivity. Qed.

(** C2, as stated, fails: category "a" holds id 1, category "b" holds id 2,
    and a file appended to "a" is numbered 3, not 2. *)
Lemma append_does_not_continue_category_maximum :
  max_rowid (rows_of db_two_categories "a") = 1
  /\ map row_id (rows_of (snd (add_files_to_category None db_two_categories "a" [doc_c] "t4")) "a")
     = [1; 3]
  /\ ~ append_as_stated db_two_categories "a" [doc_c]
        (snd (add_files_to_category None db_two_categories "a" [doc_c] "t4")).
Proof.
  split; [reflexivity|]. split; [reflexivity|].
  intros [H|H]; vm_compute in H; discriminate H.
Qed.

(** ** Deleting a file by position *)

Lemma btree_insert_length (r : file_row) (rows : list file_row) :
  length (btree_insert r rows) = S (length rows).
Proof.
  induction rows as [|r' rows IH]; simpl; [reflexivity|].
  destruct (row_id r <? row_id r'); simpl; [reflexivity|]. rewrite IH. reflexivity.
Qed.

Lemma order_by_id_length (rows : list file_row) :
  length (order_by_id rows) = length rows.
Proof.
  induction rows as [|r rows IH]; simpl; [reflexivity|].
  unfold order_by_id in *. simpl. rewrite btree_insert_length, IH. reflexivity.
Qed.

Lemma py_index_below {A} (l : list A) (i : Z) :
  i < - Z.of_nat (length l) -> py_index l i = None.
Proof.
  intros H. unfold py_index.
  destruct (0 <=? i) eqn:E1; [apply Z.leb_le in E1; lia|].
  destruct (0 <=? i + Z.of_nat (length l)) eqn:E2; [apply Z.leb_le in E2; lia|].
  reflexivity.
Qed.

(** The guard of [delete_file] and Python's own range check together: an
    index at or beyond the length, or below minus the length, deletes
    nothing. *)
Lemma delete_file_out_of_range fault d cid i :
  Z.of_nat (length (rows_of d cid)) <= i \/ i < - Z.of_nat (length (rows_of d cid)) ->
  delete_file fault d cid i = (false, d).
Proof.
  intros Hi. unfold delete_file, with_connection, sql_select_file_ids.
  unfold bind at 1. unfold bind at 1. unfold storage_step.
  destruct fault as [[|k]|]; simpl; try reflexivity; fold (rows_of d cid);
    unfold bind, read_db, ret; simpl; fold (rows_of d cid);
    rewrite length_map, order_by_id_length;
    (destruct (Z.of_nat (length (rows_of d cid)) <=? i) eqn:E; [reflexivity|]);
    apply Z.leb_gt in E; destruct Hi as [Hi|Hi]; try lia;
    rewrite py_index_below by (rewrite length_map, order_by_id_length; exact Hi);
    reflexivity.
Qed.

(** Whatever [delete_file] does, the rows that remain keep their order: the
    table is what it was, or what it was without the row of one id. *)
Lemma delete_file_keeps_order fault d cid i :
  snd (delete_file fault d cid i) = d
  \/ exists fid,
       snd (delete_file fault d cid i)
       = mk_database (tbl_categories d)
           (List.filter (fun r => negb (row_id r =? fid)) (tbl_files d))
           (sqlite_sequence d).
Proof.
  unfold delete_file, with_connection, sql_select_file_ids, sql_delete_file_by_id.
  unfold conn_commit, bind, storage_step, read_db, write_db, ret, raise.
  destruct fault as [[|[|[|k]]]|]; simpl; auto;
    (destruct (_ <=? i); simpl; [auto|]);
    (destruct (py_index _ i) as [fid|]; simpl; [|auto]); eauto.
Qed.

(** C3.  [delete_file] at the failing input: the category holds two files
    and the index is -1.  The guard [file_index >= len(file_ids)] lets the
    index through, [file_ids[-1]] is the last id, and the last file is
    deleted; [delete_file_from_category] has the same guard and reports the
    deletion as a success. *)
Theorem delete_file_negative_index_deletes :
  length (rows_of db_two_files "a") = 2%nat
  /\ fst (delete_file None db_two_files "a" (-1)) = true
  /\ map row_file_id (rows_of (snd (delete_file None db_two_files "a" (-1))) "a") = ["h1"]
  /\ length (rows_of (db state_committed) "a1b2c3d4") = 1%nat
  /\ sent (button_handler [1] state_committed 1 "del_file_a1b2c3d4_-1" sample_env)
     = [AnswerQuery; EditMessageText (MsgFileDeleted (Some "a.txt"))]
  /\ rows_of (db (after (button_handler [1] state_committed 1 "del_file_a1b2c3d4_-1"
                           sample_env))) "a1b2c3d4" = [].
Proof. repeat split. Qed.

(** ** Appending to a missing category *)

(** C4.  [add_files_to_category] at the failing input: no category "nocat"
    exists, yet the call returns [True] and stores a row keyed to it.  The
    same happens through the handlers when a category is deleted while an
    upload for it is open: [finish_upload] reports success and the row
    stays behind, out of reach of [get_category]. *)
Theorem add_files_to_missing_category_succeeds :
  get_category None empty_database "nocat" = None
  /\ fst (add_files_to_category None empty_database "nocat" [doc_a] "t1") = true
  /\ map row_category_id
       (tbl_files (snd (add_files_to_category None empty_database "nocat" [doc_a] "t1")))
     = ["nocat"]
  /\ get_category None (db state_category_deleted) "a1b2c3d4" = None
  /\ sent (finish_upload "bot" state_category_deleted 1 sample_env)
     = [ReplyText (MsgFilesAdded 1 "https://t.me/bot?start=cat_a1b2c3d4")]
  /\ map row_category_id
       (tbl_files (db (after (finish_upload "bot" state_category_deleted 1 sample_env))))
     = ["a1b2c3d4"]
  /\ tbl_categories (db (after (finish_upload "bot" state_category_deleted 1 sample_env)))
     = [].
Proof. repeat split. Qed.

(** ** Creating a category *)

Lemma add_category_run fault d cid nm by_ now :
  add_category fault d cid nm by_ now = (false, d)
  \/ (existsb (fun c => String.eqb (cat_id c) cid) (tbl_categories d) = false
      /\ add_category fault d cid nm by_ now =
           (true, mk_database (tbl_categories d ++ [mk_category_row cid nm by_ now])%list
                    (tbl_files d) (sqlite_sequence d))).
Proof.
  unfold add_category, with_connection, sql_insert_category.
  destruct (negb (fits_int64 by_)); [left; reflexivity|].
  unfold bind, conn_commit, bind, storage_step, read_db, write_db, raise, ret.
  destruct fault as [[|[|k]]|]; simpl; try (left; reflexivity);
    destruct (existsb _ _); simpl; auto.
Qed.

Lemma add_category_storage_failure d cid nm by_ now :
  add_category (Some 0%nat) d cid nm by_ now = (false, d).
Proof.
  unfold add_category, with_connection, sql_insert_category.
  destruct (negb (fits_int64 by_)); reflexivity.
Qed.

Section Handlers.

Variable ADMIN_IDS : list Z.
Variable BOT_USERNAME : string.

(** C5 (as amended).  When the generated id already belongs to a category,
    [add_category] returns [False] and leaves the database as it was, so
    the existing category is not overwritten; [new_category] tells the
    caller that the creation failed.  [False] and that reply are also what
    a storage failure gives: the caller sees that the creation failed, not
    why. *)
Theorem add_category_collision_fails (st : bot_state) (user_id : Z)
    (args : list string) (env : environment) :
  is_admin ADMIN_IDS user_id = true ->
  args <> [] ->
  existsb (fun c => String.eqb (cat_id c) (slice_to 8 (env_uuid env)))
          (tbl_categories (db st)) = true ->
  (forall fault nm by_ now,
     add_category fault (db st) (slice_to 8 (env_uuid env)) nm by_ now = (false, db st))
  /\ new_category ADMIN_IDS BOT_USERNAME st user_id args env
     = done_with st [ReplyText MsgCreateCategoryError]
  /\ (forall cid nm by_ now,
        add_category (Some 0%nat) (db st) cid nm by_ now = (false, db st)).
Proof.
  intros Hadmin Hargs Hdup.
  assert (Hfail : forall fault nm by_ now,
            add_category fault (db st) (slice_to 8 (env_uuid env)) nm by_ now
            = (false, db st)).
  { intros fault nm by_ now.
    destruct (add_category_run fault (db st) (slice_to 8 (env_uuid env)) nm by_ now)
      as [H|[H _]]; [exact H|congruence]. }
  split; [exact Hfail|]. split; [|intros; apply add_category_storage_failure].
  unfold new_category. rewrite Hadmin. simpl.
  destruct args as [|a args]; [congruence|]. simpl.
  rewrite Hfail. destruct st; reflexivity.
Qed.

(** ** Committing an upload *)

(** C6.  For a caller with an upload in progress that holds at least one
    file: when the append fails, [finish_upload] leaves the whole state as
    it was, so the caller still has the same target category and the same
    files and can commit again; when the append succeeds, the caller's
    entry is removed and the database is the one the append produced. *)
Theorem finish_upload_keeps_session_on_failure (st : bot_state) (user_id : Z)
    (env : environment) (info : upload_info) :
  pending_uploads st !! user_id = Some info ->
  upload_files info <> [] ->
  let r := add_files_to_category (env_fault1 env) (db st) (upload_category_id info)
             (upload_files info) (env_now env) in
  let o := finish_upload BOT_USERNAME st user_id env in
  (fst r = false ->
     after o = st
     /\ pending_uploads (after o) !! user_id = Some info
     /\ sent o = [ReplyText MsgSaveFilesError])
  /\ (fst r = true ->
        db (after o) = snd r
        /\ pending_uploads (after o) = delete user_id (pending_uploads st)
        /\ pending_uploads (after o) !! user_id = None).
Proof.
  intros Hpending Hfiles r o. subst r o. unfold finish_upload. rewrite Hpending.
  destruct (upload_files info) as [|fi fs] eqn:Hfs; [congruence|].
  destruct (add_files_to_category_run (env_fault1 env) (db st) (upload_category_id info)
              (fi :: fs) (env_now env)) as [->|[_ ->]]; simpl.
  - split; [|discriminate]. intros _. destruct st; simpl in *. auto.
  - split; [discriminate|]. intros _. repeat split. apply lookup_delete_eq.
Qed.

End Handlers.

(** The theorem on an id that is taken. *)
Lemma add_category_collision_fails_witness :
  is_admin [1] 1 = true
  /\ ["Docs"] <> []
  /\ new_category [1] "bot" state_with_category 1 ["Docs"] sample_env
     = done_with state_with_category [ReplyText MsgCreateCategoryError].
Proof.
  assert (H1 : is_admin [1] 1 = true) by reflexivity.
  assert (H2 : ["Docs"] <> []) by discriminate.
  split; [exact H1|]. split; [exact H2|].
  exact (proj1 (proj2 (add_category_collision_fails [1] "bot" state_with_category 1
                         ["Docs"] sample_env H1 H2 eq_refl))).
Defined.

(** C5, as stated, fails: a collision and a storage failure give the same
    result. *)
Lemma conflict_not_distinguishable :
  existsb (fun c => String.eqb (cat_id c) "a") (tbl_categories db_one_category) = true
  /\ existsb (fun c => String.eqb (cat_id c) "zz") (tbl_categories db_one_category) = false
  /\ add_category None db_one_category "a" "Docs" 1 "t"
     = add_category (Some 0%nat) db_one_category "zz" "Docs" 1 "t"
  /\ sent (new_category [1] "bot" state_with_category 1 ["Docs"] sample_env)
     = sent (new_category [1] "bot" state_with_category 1 ["Docs"]
               (mk_environment "t" "ffffffff-0000" (Some 0%nat) None))
  /\ ~ conflict_distinguishable db_one_category "a" "zz".
Proof.
  split; [reflexivity|]. split; [reflexivity|]. split; [reflexivity|].
  split; [reflexivity|].
  intros H. apply (H (Some 0%nat) "Docs" 1 "t"); reflexivity.
Qed.

(** The theorem on a store that fails at the first insert. *)
Lemma finish_upload_keeps_session_on_failure_witness :
  pending_uploads state_collecting !! 1
    = Some (mk_upload_info "a1b2c3d4" [doc_a])
  /\ upload_files (mk_upload_info "a1b2c3d4" [doc_a]) <> []
  /\ after (finish_upload "bot" state_collecting 1 failing_env) = state_collecting
  /\ pending_uploads (after (finish_upload "bot" state_collecting 1 failing_env)) !! 1
     = Some (mk_upload_info "a1b2c3d4" [doc_a])
  /\ sent (finish_upload "bot" state_collecting 1 failing_env)
     = [ReplyText MsgSaveFilesError].
Proof.
  assert (H1 : pending_uploads state_collecting !! 1
               = Some (mk_upload_info "a1b2c3d4" [doc_a])) by reflexivity.
  assert (H2 : upload_files (mk_upload_info "a1b2c3d4" [doc_a]) <> []) by discriminate.
  split; [exact H1|]. split; [exact H2|].
  exact (proj1 (finish_upload_keeps_session_on_failure "bot" state_collecting 1
                  failing_env (mk_upload_info "a1b2c3d4" [doc_a]) H1 H2) eq_refl).
Defined.

(** ** Starting an upload *)

(** [/upload] starts an upload only for a category that exists, and then
    with an empty list, whatever the caller had collected before. *)
Lemma upload_command_starts_empty (admins : list Z) (st : bot_state) (user_id : Z)
    (category_id : string) (rest : list string) (env : environment) :
  is_admin admins user_id = true ->
  match get_category (env_fault1 env) (db st) category_id with
  | None =>
      upload_command admins st user_id (category_id :: rest) env
      = done_with st [ReplyText MsgCategoryNotFound]
  | Some cat =>
      pending_uploads (after (upload_command admins st user_id (category_id :: rest) env))
        !! user_id = Some (mk_upload_info category_id [])
      /\ db (after (upload_command admins st user_id (category_id :: rest) env)) = db st
  end.
Proof.
  intros Hadmin. unfold upload_command. rewrite Hadmin. simpl.
  destruct (get_category _ _ _); simpl; [|reflexivity].
  split; [apply lookup_insert_eq|reflexivity].
Qed.

(** C7.  [start_adding_files] at the failing input: no category "zzzz"
    exists and [/upload zzzz] is refused for that reason, but the admin's
    button data [add_zzzz] starts an upload for it all the same. *)
Theorem start_adding_files_without_category :
  is_admin [1] 1 = true
  /\ get_category None (db boot_state) "zzzz" = None
  /\ upload_command [1] boot_state 1 ["zzzz"] sample_env
     = done_with boot_state [ReplyText MsgCategoryNotFound]
  /\ pending_uploads (after (button_handler [1] boot_state 1 "add_zzzz" sample_env)) !! 1
     = Some (mk_upload_info "zzzz" [])
  /\ sent (button_handler [1] boot_state 1 "add_zzzz" sample_env)
     = [AnswerQuery; EditMessageText MsgAddingStarted].
Proof. repeat split. Qed.

(** ** Who can hold an upload *)

Ltac split_cases :=
  repeat match goal with
         | |- context [match ?x with _ => _ end] => destruct x eqn:?; simpl
         end.

Section Invariants.

Variable ADMIN_IDS : list Z.
Variable BOT_USERNAME : string.

Lemma handle_category_access_state st user_id category_id env :
  after (handle_category_access ADMIN_IDS st user_id category_id env) = st
  /\ raised (handle_category_access ADMIN_IDS st user_id category_id env) = None.
Proof. unfold handle_category_access. split_cases; auto. Qed.

Lemma start_state st user_id args env :
  after (start ADMIN_IDS st user_id args env) = st
  /\ raised (start ADMIN_IDS st user_id args env) = None.
Proof.
  unfold start. destruct args as [|a0 args]; [destruct (is_admin _ _); auto|].
  destruct (startswith a0 "cat_"); [apply handle_category_access_state|].
  destruct (is_admin _ _); auto.
Qed.

Lemma new_category_pending st user_id args env :
  pending_uploads (after (new_category ADMIN_IDS BOT_USERNAME st user_id args env))
  = pending_uploads st.
Proof. unfold new_category. split_cases; reflexivity. Qed.

Lemma categories_list_state st user_id env :
  after (categories_list ADMIN_IDS BOT_USERNAME st user_id env) = st.
Proof. unfold categories_list. split_cases; reflexivity. Qed.

Lemma view_category_files_state st category_id env :
  after (view_category_files st category_id env) = st.
Proof. unfold view_category_files. split_cases; reflexivity. Qed.

Lemma show_files_for_deletion_state st category_id env :
  after (show_files_for_deletion st category_id env) = st.
Proof. unfold show_files_for_deletion. split_cases; reflexivity. Qed.

Lemma delete_file_from_category_pending st category_id file_index env :
  pending_uploads (after (delete_file_from_category st category_id file_index env))
  = pending_uploads st.
Proof. unfold delete_file_from_category. split_cases; reflexivity. Qed.

Lemma delete_category_handler_pending st category_id env :
  pending_uploads (after (delete_category_handler st category_id env))
  = pending_uploads st.
Proof. unfold delete_category_handler. split_cases; reflexivity. Qed.

Lemma button_handler_pending st user_id data env (k : Z) :
  is_Some (pending_uploads (after (button_handler ADMIN_IDS st user_id data env)) !! k) ->
  is_Some (pending_uploads st !! k) \/ is_admin ADMIN_IDS k = true.
Proof.
  unfold button_handler, after_sending. cbn [after].
  destruct (is_admin ADMIN_IDS user_id) eqn:Hadmin; cbn [negb]; [|auto].
  destruct (startswith data "view_"); [rewrite view_category_files_state; auto|].
  destruct (startswith data "add_").
  { unfold start_adding_files, done_with. cbn [after pending_uploads].
    destruct (decide (user_id = k)) as [->|Hne].
    - auto.
    - rewrite lookup_insert_ne by exact Hne. auto. }
  destruct (startswith data "delete_file_"); [rewrite show_files_for_deletion_state; auto|].
  destruct (startswith data "delete_cat_"); [cbn; auto|].
  destruct (startswith data "confirm_del_cat_");
    [rewrite delete_category_handler_pending; auto|].
  destruct (startswith data "del_file_"); [|cbn; auto].
  destruct (nth_error (split_once _ _) 0); [|cbn; auto].
  destruct (nth_error (split_once _ _) 1); [|cbn; auto].
  destruct (py_int _); [|cbn; auto].
  rewrite delete_file_from_category_pending. auto.
Qed.

(** No handler gives an upload to anyone but an admin. *)
Lemma dispatch_pending st u env (k : Z) :
  is_Some (pending_uploads (after (dispatch ADMIN_IDS BOT_USERNAME st u env)) !! k) ->
  is_Some (pending_uploads st !! k) \/ is_admin ADMIN_IDS k = true.
Proof.
  destruct u as [user_id args|user_id args|user_id args|user_id|user_id
                 |user_id doc cap|user_id data]; simpl.
  - rewrite (proj1 (start_state _ _ _ _)). auto.
  - rewrite new_category_pending. auto.
  - unfold upload_command.
    destruct (is_admin ADMIN_IDS user_id) eqn:Hadmin; simpl; [|auto].
    destruct args as [|category_id args]; simpl; [auto|].
    destruct (get_category _ _ _); simpl; [|auto].
    destruct (decide (user_id = k)) as [->|Hne]; [auto|].
    rewrite lookup_insert_ne by exact Hne. auto.
  - unfold finish_upload.
    destruct (pending_uploads st !! user_id) as [info|]; simpl; [|auto].
    destruct (upload_files info); simpl; [auto|].
    destruct (add_files_to_category _ _ _ _ _) as [[|] d']; simpl; [|auto].
    destruct (decide (user_id = k)) as [->|Hne].
    + rewrite lookup_delete_eq. intros [x Hx]. discriminate.
    + rewrite lookup_delete_ne by exact Hne. auto.
  - rewrite categories_list_state. auto.
  - unfold handle_document.
    destruct (pending_uploads st !! user_id) as [info|] eqn:Hinfo; simpl; [|auto].
    destruct (decide (user_id = k)) as [->|Hne].
    + intros _. left. rewrite Hinfo. eauto.
    + rewrite lookup_insert_ne by exact Hne. auto.
  - apply button_handler_pending.
Qed.

Lemma reachable_pending_admin st :
  reachable ADMIN_IDS BOT_USERNAME st ->
  forall k, is_Some (pending_uploads st !! k) -> is_admin ADMIN_IDS k = true.
Proof.
  induction 1 as [d|st u env _ IH]; intros k Hk.
  - simpl in Hk. rewrite lookup_empty in Hk. destruct Hk as [x Hx]. discriminate.
  - destruct (dispatch_pending st u env k Hk) as [H|H]; [apply IH; exact H|exact H].
Qed.

(** C10.  In every reachable state every key of [pending_uploads] is an
    admin.  So [handle_document] and [finish_upload], which look only at
    [pending_uploads], change the state for admins alone. *)
Theorem pending_uploads_keys_are_admins st :
  reachable ADMIN_IDS BOT_USERNAME st ->
  (forall k, is_Some (pending_uploads st !! k) -> is_admin ADMIN_IDS k = true)
  /\ (forall user_id doc cap,
        after (handle_document st user_id doc cap) <> st ->
        is_admin ADMIN_IDS user_id = true)
  /\ (forall user_id env,
        after (finish_upload BOT_USERNAME st user_id env) <> st ->
        is_admin ADMIN_IDS user_id = true).
Proof.
  intros Hreach. pose proof (reachable_pending_admin st Hreach) as Hinv.
  split; [exact Hinv|]. split.
  - intros user_id doc cap. unfold handle_document.
    destruct (pending_uploads st !! user_id) as [info|] eqn:Hinfo; simpl.
    + intros _. apply Hinv. rewrite Hinfo. eauto.
    + intros H. congruence.
  - intros user_id env. unfold finish_upload.
    destruct (pending_uploads st !! user_id) as [info|] eqn:Hinfo; simpl.
    + intros _. apply Hinv. rewrite Hinfo. eauto.
    + intros H. congruence.
Qed.

End Invariants.

(** ** Decoding the callback data *)

Lemma startswith_split (s p : string) :
  startswith s p = true -> s = (p ++ slice_from (String.length p) s)%string.
Proof.
  revert s. induction p as [|a p IH]; intros s; simpl.
  - destruct s; reflexivity.
  - destruct s as [|b s]; simpl; [discriminate|].
    intros H. apply andb_true_iff in H as [Hab Hrest].
    apply Ascii.eqb_eq in Hab. subst b.
    change (String a s = String a (p ++ slice_from (String.length p) s)%string).
    f_equal. apply IH. exact Hrest.
Qed.

(** [split] with a limit of one gives one piece when the separator does not
    occur and two pieces when it does. *)
Lemma split_once_pieces (sep : ascii) (s : string) :
  (exists p0, split_once sep s = [p0]) \/ (exists p0 p1, split_once sep s = [p0; p1]).
Proof.
  induction s as [|a s IH]; simpl; [left; eauto|].
  destruct (Ascii.eqb a sep); [right; eauto|].
  destruct IH as [[p0 ->]|(p0 & p1 & ->)]; [left|right]; eauto.
Qed.

Section Decoding.

Variable ADMIN_IDS : list Z.

(** C8 (as amended).  For an admin, [button_handler] on data that it does
    not decode to an action never changes the state, but it does not
    return an error value either.  Data with none of the known prefixes is
    skipped in silence: the handler returns normally and sends nothing
    besides the answer to the query.  Data [del_file_...] with no second
    field leaves the handler by IndexError, and with a second field that
    [int] rejects, by ValueError. *)
Theorem button_handler_malformed_data (st : bot_state) (user_id : Z)
    (data : string) (env : environment) :
  is_admin ADMIN_IDS user_id = true ->
  (known_prefix data = false ->
     button_handler ADMIN_IDS st user_id data env = mk_outcome None st [AnswerQuery])
  /\ (startswith data "del_file_" = true ->
        (forall p0, split_once "_" (slice_from 9 data) = [p0] ->
           button_handler ADMIN_IDS st user_id data env
           = mk_outcome (Some IndexError) st [AnswerQuery])
        /\ (forall p0 p1, split_once "_" (slice_from 9 data) = [p0; p1] ->
              py_int p1 = None ->
              button_handler ADMIN_IDS st user_id data env
              = mk_outcome (Some ValueError) st [AnswerQuery])).
Proof.
  intros Hadmin. split.
  - unfold known_prefix. intros H.
    repeat (apply orb_false_iff in H as [H ?]).
    unfold button_handler. rewrite Hadmin. cbn [negb].
    repeat match goal with E : startswith data _ = false |- _ => rewrite E; clear E end.
    reflexivity.
  - intros Hdel.
    assert (Hother : startswith data "view_" = false
                     /\ startswith data "add_" = false
                     /\ startswith data "delete_file_" = false
                     /\ startswith data "delete_cat_" = false
                     /\ startswith data "confirm_del_cat_" = false).
    { rewrite (startswith_split _ _ Hdel). repeat split. }
    destruct Hother as (Hv & Ha & Hf & Hc & Hk).
    unfold button_handler. rewrite Hadmin, Hv, Ha, Hf, Hc, Hk, Hdel. cbn [negb].
    split.
    + intros p0 ->. reflexivity.
    + intros p0 p1 -> Hint. cbn [nth_error]. rewrite Hint. reflexivity.
Qed.

End Decoding.

(** The theorem on data whose index is not a number. *)
Lemma button_handler_malformed_data_witness :
  is_admin [1] 1 = true
  /\ button_handler [1] state_committed 1 "del_file_a1b2c3d4_x" sample_env
     = mk_outcome (Some ValueError) state_committed [AnswerQuery].
Proof.
  assert (H : is_admin [1] 1 = true) by reflexivity.
  split; [exact H|].
  exact (proj2 (proj2 (button_handler_malformed_data [1] state_committed 1
                         "del_file_a1b2c3d4_x" sample_env H) eq_refl)
           "a1b2c3d4" "x" eq_refl eq_refl).
Defined.

(** C8, as stated, fails: decoding raises ValueError on an index that is
    not a number and IndexError on a missing index. *)
Lemma decoding_not_total :
  raised (button_handler [1] boot_state 1 "del_file_abc_x" sample_env) = Some ValueError
  /\ raised (button_handler [1] boot_state 1 "del_file_abc" sample_env) = Some IndexError
  /\ ~ decoding_total [1] boot_state 1 sample_env.
Proof.
  split; [reflexivity|]. split; [reflexivity|].
  intros H. specialize (H "del_file_abc_x"). discriminate H.
Qed.

(** ** What a caller who is not an admin can do *)

Lemma startswith_prefix (p s : string) : startswith (p ++ s) p = true.
Proof.
  induction p as [|a p IH]; simpl; [destruct s; reflexivity|].
  rewrite Ascii.eqb_refl. exact IH.
Qed.

Lemma slice_from_prefix (p s : string) : slice_from (String.length p) (p ++ s) = s.
Proof. induction p as [|a p IH]; simpl; [destruct s; reflexivity|exact IH]. Qed.

Lemma send_files_documents (fs : list file_info) (m : message) :
  ~ In (ReplyText m) (send_files fs) /\ ~ In (EditMessageText m) (send_files fs).
Proof.
  unfold send_files. split; intros H; apply in_map_iff in H as (fi & Hfi & _);
    discriminate Hfi.
Qed.

Section Authorization.

Variable ADMIN_IDS : list Z.
Variable BOT_USERNAME : string.

(** The deep link [cat_<id>] of an existing category, for any caller. *)
Lemma deep_link_read (st : bot_state) (reader : Z) (cid : string) (cat : category)
    (env : environment) :
  get_category (env_fault1 env) (db st) cid = Some cat ->
  let o := start ADMIN_IDS st reader [("cat_" ++ cid)%string] env in
  after o = st
  /\ raised o = None
  /\ ~ authorization_error o
  /\ (is_admin ADMIN_IDS reader = false -> files cat <> [] ->
        sent o = ReplyText (MsgSendingFiles (name cat)) :: send_files (files cat))
  /\ (is_admin ADMIN_IDS reader = true -> files cat <> [] ->
        sent (button_handler ADMIN_IDS st reader ("view_" ++ cid) env)
        = AnswerQuery :: EditMessageText MsgSendingFilesShort :: send_files (files cat))
  /\ (is_admin ADMIN_IDS reader = true ->
        sent o = [ReplyText (MsgAdminMenu (name cat) (length (files cat))
                               [("view_" ++ cid)%string;
                                ("add_" ++ cid)%string;
                                ("delete_file_" ++ cid)%string;
                                ("delete_cat_" ++ cid)%string])]).
Proof.
  intros Hcat o. subst o.
  split; [apply start_state|]. split; [apply start_state|].
  unfold start. rewrite (startswith_prefix "cat_" cid).
  change (slice_from 4 ("cat_" ++ cid)) with (slice_from (String.length "cat_") ("cat_" ++ cid)).
  rewrite slice_from_prefix. unfold handle_category_access. rewrite Hcat.
  split; [|split; [|split]].
  - unfold authorization_error.
    destruct (is_admin ADMIN_IDS reader); [simpl; intros [[H|[]]|[H|[]]]; discriminate H|].
    destruct (files cat) as [|fi fs]; [simpl; intros [[H|[]]|[H|[]]]; discriminate H|].
    unfold done_with. cbn [sent].
    intros [[H|H]|[H|H]]; try discriminate H;
      [exact (proj1 (send_files_documents _ _) H)
      |exact (proj2 (send_files_documents _ _) H)].
  - intros Hreader Hfiles. rewrite Hreader.
    destruct (files cat) as [|fi fs]; [congruence|reflexivity].
  - intros Hreader Hfiles. unfold button_handler. rewrite Hreader. cbn [negb].
    rewrite (startswith_prefix "view_" cid).
    change (slice_from 5 ("view_" ++ cid))
      with (slice_from (String.length "view_") ("view_" ++ cid)).
    rewrite slice_from_prefix. unfold view_category_files. rewrite Hcat.
    destruct (files cat) as [|fi fs]; [congruence|reflexivity].
  - intros Hreader. rewrite Hreader. reflexivity.
Qed.

(** C9 (as amended).  In every reachable state, no entry point changes the
    database or the pending uploads on behalf of a caller who is not an
    admin.  [new_category], [upload_command] and every button answer that
    the caller is not authorized; [finish_upload] answers that no upload is
    in progress and [handle_document] answers nothing.  A deep link to an
    existing category is served to every caller: one who is not an admin is
    sent the files, an admin gets the management menu and the files
    through its view button. *)
Theorem non_admin_cannot_mutate (st : bot_state) (user_id : Z) (env : environment) :
  reachable ADMIN_IDS BOT_USERNAME st ->
  is_admin ADMIN_IDS user_id = false ->
  (forall args, new_category ADMIN_IDS BOT_USERNAME st user_id args env
                = done_with st [ReplyText MsgNotAuthorized])
  /\ (forall args, upload_command ADMIN_IDS st user_id args env
                   = done_with st [ReplyText MsgNotAuthorized])
  /\ (forall data, button_handler ADMIN_IDS st user_id data env
                   = mk_outcome None st [AnswerQuery; EditMessageText MsgNotAuthorized])
  /\ finish_upload BOT_USERNAME st user_id env
     = done_with st [ReplyText MsgNoUploadInProgress]
  /\ (forall doc cap, handle_document st user_id doc cap = done_with st [])
  /\ (forall reader cid cat,
        get_category (env_fault1 env) (db st) cid = Some cat ->
        let o := start ADMIN_IDS st reader [("cat_" ++ cid)%string] env in
        after o = st
        /\ raised o = None
        /\ ~ authorization_error o
        /\ (is_admin ADMIN_IDS reader = false -> files cat <> [] ->
              sent o = ReplyText (MsgSendingFiles (name cat)) :: send_files (files cat))
        /\ (is_admin ADMIN_IDS reader = true -> files cat <> [] ->
              sent (button_handler ADMIN_IDS st reader ("view_" ++ cid) env)
              = AnswerQuery :: EditMessageText MsgSendingFilesShort
                  :: send_files (files cat))
        /\ (is_admin ADMIN_IDS reader = true ->
              sent o = [ReplyText (MsgAdminMenu (name cat) (length (files cat))
                                     [("view_" ++ cid)%string;
                                      ("add_" ++ cid)%string;
                                      ("delete_file_" ++ cid)%string;
                                      ("delete_cat_" ++ cid)%string])])).
Proof.
  intros Hreach Hadmin.
  assert (Hnone : pending_uploads st !! user_id = None).
  { destruct (pending_uploads st !! user_id) as [info|] eqn:Hinfo; [|reflexivity].
    assert (is_admin ADMIN_IDS user_id = true) as Hyes.
    { apply (reachable_pending_admin ADMIN_IDS BOT_USERNAME st Hreach).
      rewrite Hinfo. eauto. }
    congruence. }
  repeat split.
  - unfold new_category. rewrite Hadmin. reflexivity.
  - unfold upload_command. rewrite Hadmin. reflexivity.
  - unfold button_handler. rewrite Hadmin. reflexivity.
  - unfold finish_upload. rewrite Hnone. reflexivity.
  - unfold handle_document. rewrite Hnone. reflexivity.
  - apply (deep_link_read st reader cid cat env H).
  - apply (deep_link_read st reader cid cat env H).
  - apply (deep_link_read st reader cid cat env H).
  - apply (deep_link_read st reader cid cat env H).
  - apply (deep_link_read st reader cid cat env H).
  - apply (deep_link_read st reader cid cat env H).
Qed.

End Authorization.

(** ** The theorems on the sample data *)

Lemma db_interleaved_reachable : db_reachable db_interleaved.
Proof.
  unfold db_interleaved, db_after_delete, db_two_files, db_one_category.
  apply reach_add_files, reach_delete_file, reach_add_files, reach_add_category,
    reach_init.
Qed.

Lemma state_collecting_reachable : reachable [1] "bot" state_collecting.
Proof.
  apply (reachable_update [1] "bot" _
           (DocumentMessage 1 (mk_document "h1" (Some "a.txt") (Some 10)) (Some "first"))
           sample_env).
  apply (reachable_update [1] "bot" state_with_category
           (CommandUpload 1 ["a1b2c3d4"]) sample_env).
  apply (reachable_update [1] "bot" boot_state (CommandNewCategory 1 ["Docs"]) sample_env).
  apply reachable_boot.
Qed.

Lemma state_committed_reachable : reachable [1] "bot" state_committed.
Proof.
  apply (reachable_update [1] "bot" state_collecting (CommandFinishUpload 1) sample_env).
  exact state_collecting_reachable.
Qed.

(** C9 on a caller who is not an admin, after an admin committed one file:
    the commit is answered with "no upload in progress" and the deep link
    delivers the file. *)
Lemma non_admin_cannot_mutate_witness :
  reachable [1] "bot" state_committed
  /\ is_admin [1] 2 = false
  /\ finish_upload "bot" state_committed 2 sample_env
     = done_with state_committed [ReplyText MsgNoUploadInProgress]
  /\ sent (start [1] state_committed 2 ["cat_a1b2c3d4"] sample_env)
     = [ReplyText (MsgSendingFiles "Docs"); SendDocument "h1" "first"].
Proof.
  assert (H : is_admin [1] 2 = false) by reflexivity.
  split; [exact state_committed_reachable|]. split; [exact H|].
  pose proof (non_admin_cannot_mutate [1] "bot" state_committed 2 sample_env
                state_committed_reachable H) as (_ & _ & _ & Hfinish & _ & Hlink).
  split; [exact Hfinish|].
  assert (Hfiles : [doc_a] <> []) by discriminate.
  exact (proj1 (proj2 (proj2 (proj2
           (Hlink 2 "a1b2c3d4" (mk_category "Docs" [doc_a] 1 "t") eq_refl)))) H Hfiles).
Defined.

(** C9, as stated, fails: a caller who is not an admin and sends
    [/finish_upload] or a document is not told that the operation is not
    permitted. *)
Lemma non_admin_commit_without_authorization_error :
  is_admin [1] 2 = false
  /\ sent (finish_upload "bot" boot_state 2 sample_env) = [ReplyText MsgNoUploadInProgress]
  /\ ~ authorization_error (finish_upload "bot" boot_state 2 sample_env)
  /\ sent (handle_document boot_state 2 (mk_document "h1" (Some "a.txt") (Some 10)) None)
     = []
  /\ ~ authorization_error
        (handle_document boot_state 2 (mk_document "h1" (Some "a.txt") (Some 10)) None).
Proof.
  repeat split; try reflexivity;
    intros [H|H]; simpl in H; repeat destruct H as [H|H]; try discriminate H; exact H.
Qed.

(** C10 on the state in which admin 1 is collecting files. *)
Lemma pending_uploads_keys_are_admins_witness :
  reachable [1] "bot" state_collecting
  /\ ((forall k, is_Some (pending_uploads state_collecting !! k) -> is_admin [1] k = true)
      /\ (forall user_id doc cap,
            after (handle_document state_collecting user_id doc cap) <> state_collecting ->
            is_admin [1] user_id = true)
      /\ (forall user_id env,
            after (finish_upload "bot" state_collecting user_id env) <> state_collecting ->
            is_admin [1] user_id = true)).
Proof.
  split; [exact state_collecting_reachable|].
  exact (pending_uploads_keys_are_admins [1] "bot" state_collecting
           state_collecting_reachable).
Defined.

(** * Further properties of the code *)

(** ** Invariants of the tables *)

Lemma keeps_read (P : database -> Prop) {A} (f : database -> A) :
  keeps P (storage_step ;;; d <- read_db ;; ret (f d)).
Proof.
  intros c [Hc Hw]. unfold conn_ok, bind, storage_step, read_db, ret.
  destruct (budget c) as [[|k]|]; simpl; split; assumption.
Qed.

Lemma keeps_insert_files (P : database -> Prop) cid fs now :
  (forall fi, keeps P (sql_insert_file cid fi now)) ->
  keeps P (insert_files_loop cid fs now).
Proof.
  intros H. induction fs as [|fi fs IH]; simpl; [apply keeps_ret|].
  apply keeps_bind; [apply H|]. intros _. exact IH.
Qed.

(** A property that every statement keeps is kept by every method. *)
Lemma db_step_keeps (P : database -> Prop) :
  (forall cid nm by_ now, keeps P (sql_insert_category cid nm by_ now)) ->
  (forall cid fi now, keeps P (sql_insert_file cid fi now)) ->
  (forall fid, keeps P (sql_delete_file_by_id fid)) ->
  (forall cid, keeps P (sql_delete_files_of cid)) ->
  (forall cid, keeps P (sql_delete_category cid)) ->
  forall d d', db_step d d' -> P d -> P d'.
Proof.
  intros Hcat Hfile Hdel Hdelfiles Hdelcat d d' Hstep Hd.
  destruct Hstep as [f d cid nm by_ now|f d cid fi now|f d cid fs now|f d cid i|f d cid].
  - unfold add_category. rewrite snd_or_false.
    apply keeps_with_connection; [|exact Hd].
    apply keeps_bind; [apply Hcat|]. intros _.
    apply keeps_bind; [apply keeps_conn_commit|]. intros _. apply keeps_ret.
  - unfold add_file_to_category. rewrite snd_or_false.
    apply keeps_with_connection; [|exact Hd].
    apply keeps_bind; [apply Hfile|]. intros _.
    apply keeps_bind; [apply keeps_conn_commit|]. intros _. apply keeps_ret.
  - unfold add_files_to_category. rewrite snd_or_false.
    apply keeps_with_connection; [|exact Hd].
    apply keeps_bind; [apply keeps_insert_files; intros fi; apply Hfile|]. intros _.
    apply keeps_bind; [apply keeps_conn_commit|]. intros _. apply keeps_ret.
  - unfold delete_file. rewrite snd_or_false.
    apply keeps_with_connection; [|exact Hd].
    apply keeps_bind; [apply (keeps_read P)|].
    intros ids. destruct (Z.of_nat (length ids) <=? i); [apply keeps_ret|].
    destruct (py_index ids i) as [fid|]; [|apply keeps_raise].
    apply keeps_bind; [apply Hdel|]. intros _.
    apply keeps_bind; [apply keeps_conn_commit|]. intros _. apply keeps_ret.
  - unfold delete_category. rewrite snd_or_false.
    apply keeps_with_connection; [|exact Hd].
    apply keeps_bind; [apply Hdelfiles|]. intros _.
    apply keeps_bind; [apply Hdelcat|]. intros _.
    apply keeps_bind; [apply keeps_conn_commit|]. intros _. apply keeps_ret.
Qed.

Lemma db_steps_keeps (P : database -> Prop) :
  (forall d d', db_step d d' -> P d -> P d') ->
  forall d d', db_steps d d' -> P d -> P d'.
Proof.
  intros Hstep d d' H. induction H as [d|d d' d'' _ IH Hlast]; [tauto|].
  intros Hd. eapply Hstep; [exact Hlast|]. apply IH. exact Hd.
Qed.

Lemma db_reachable_steps (d : database) :
  db_reachable d <-> db_steps empty_database d.
Proof.
  split.
  - induction 1; [apply steps_refl|..]; (eapply steps_more; [eassumption|constructor]).
  - remember empty_database as d0 eqn:E. induction 1 as [d|d d' d'' _ IH Hlast].
    + subst. apply reach_init.
    + specialize (IH E). destruct Hlast; constructor; exact IH.
Qed.

Lemma keeps_insert_category_if (P : database -> Prop) cid nm by_ now :
  (forall d, P d ->
     existsb (fun c => String.eqb (cat_id c) cid) (tbl_categories d) = false ->
     P (mk_database (tbl_categories d ++ [mk_category_row cid nm by_ now])%list
          (tbl_files d) (sqlite_sequence d))) ->
  keeps P (sql_insert_category cid nm by_ now).
Proof.
  intros HP. unfold sql_insert_category.
  destruct (negb (fits_int64 by_)); [apply keeps_raise|].
  intros c [Hc Hw]. unfold conn_ok, bind, storage_step, read_db, write_db, raise.
  destruct (budget c) as [[|k]|]; simpl; try (split; assumption);
    destruct (existsb _ _) eqn:E; simpl; split; auto.
Qed.

Lemma keeps_insert_file_if (P : database -> Prop) cid fi now :
  (forall d nm sz, P d ->
     P (mk_database (tbl_categories d)
          (tbl_files d ++ [mk_file_row (top_rowid d + 1) cid (file_id fi) nm sz
                             (Some (caption fi)) now])%list
          (top_rowid d + 1))) ->
  keeps P (sql_insert_file cid fi now).
Proof.
  intros HP c Hc.
  destruct (sql_insert_file_run cid fi now c)
    as [(e & c' & Hrun & Hcom)|(c' & Hrun & Hcom & Hst & Hw)]; rewrite Hrun; simpl.
  - revert Hrun. unfold sql_insert_file.
    destruct (match file_size fi with Some sz => negb (fits_int64 sz) | None => false end);
      [unfold raise; intros [= _ <-]; exact Hc|].
    unfold bind, storage_step, read_db, write_db, raise.
    destruct (budget c) as [[|k]|]; simpl;
      try (intros [= _ <-]; exact Hc);
      destruct (INT64_MAX <=? _); simpl; try (intros [= _ <-]; exact Hc);
      destruct (file_name fi), (file_size fi); simpl;
      try discriminate; intros [= _ <-]; exact Hc.
  - destruct Hc as [Hc Hwork]. split; [rewrite Hcom; exact Hc|].
    rewrite Hw. unfold storable in Hst. simpl.
    destruct (file_name fi) as [nm|], (file_size fi) as [sz|]; try discriminate.
    apply HP. exact Hwork.
Qed.

Lemma NoDup_map_filter {A B} (f : A -> B) (g : A -> bool) (l : list A) :
  List.NoDup (map f l) -> List.NoDup (map f (List.filter g l)).
Proof.
  induction l as [|x l IH]; simpl; intros H; [constructor|].
  apply List.NoDup_cons_iff in H as [Hx Hl].
  destruct (g x); simpl; [|apply IH; exact Hl].
  apply List.NoDup_cons_iff. split; [|apply IH; exact Hl].
  intros Hin. apply Hx. apply in_map_iff in Hin as (y & Hy & Hyin).
  apply filter_In in Hyin as [Hyin _]. apply in_map_iff. eauto.
Qed.

Lemma existsb_cat_id_false (cid : string) (cats : list category_row) :
  existsb (fun c => String.eqb (cat_id c) cid) cats = false <->
  ~ In cid (map cat_id cats).
Proof.
  induction cats as [|c cats IH]; simpl; [tauto|].
  rewrite orb_false_iff, IH. destruct (String.eqb (cat_id c) cid) eqn:E.
  - apply String.eqb_eq in E. split; [intros [? _]; discriminate|tauto].
  - apply String.eqb_neq in E. tauto.
Qed.

Lemma db_step_unique_categories d d' :
  db_step d d' -> unique_categories d -> unique_categories d'.
Proof.
  apply db_step_keeps.
  - intros cid nm by_ now. apply keeps_insert_category_if.
    intros d0 H0 Hnew. unfold unique_categories in *. simpl.
    rewrite map_app. simpl. apply List.NoDup_app.
    + exact H0.
    + repeat constructor. simpl. tauto.
    + intros x Hx [<-|[]]. apply existsb_cat_id_false in Hnew. tauto.
  - intros cid fi now. apply keeps_insert_file_if. intros d0 nm sz H0. exact H0.
  - intros fid. unfold sql_delete_file_by_id.
    apply (keeps_update unique_categories
             (fun d => mk_database (tbl_categories d)
                         (List.filter (fun r => negb (row_id r =? fid)) (tbl_files d))
                         (sqlite_sequence d))).
    intros d0 H0. exact H0.
  - intros cid. unfold sql_delete_files_of.
    apply (keeps_update unique_categories
             (fun d => mk_database (tbl_categories d)
                         (List.filter (fun r => negb (String.eqb (row_category_id r) cid))
                                      (tbl_files d))
                         (sqlite_sequence d))).
    intros d0 H0. exact H0.
  - intros cid. unfold sql_delete_category.
    apply (keeps_update unique_categories
             (fun d => mk_database
                         (List.filter (fun c => negb (String.eqb (cat_id c) cid))
                                      (tbl_categories d))
                         (tbl_files d) (sqlite_sequence d))).
    intros d0 H0. unfold unique_categories in *. simpl. apply NoDup_map_filter. exact H0.
Qed.

Lemma Forall_filter_weaken {A} (P : A -> Prop) (g : A -> bool) (l : list A) :
  Forall P l -> Forall P (List.filter g l).
Proof.
  rewrite !List.Forall_forall. intros H x Hx. apply filter_In in Hx as [Hx _]. auto.
Qed.

Lemma db_step_ids_bounded d d' :
  db_step d d' -> ids_bounded d -> ids_bounded d'.
Proof.
  apply db_step_keeps.
  - intros cid nm by_ now. apply keeps_insert_category_if. intros d0 H0 _. exact H0.
  - intros cid fi now. apply keeps_insert_file_if. intros d0 nm sz H0.
    unfold ids_bounded in *. simpl.
    pose proof (max_rowid_nonneg (tbl_files d0)) as Hmax.
    apply Forall_app. split.
    + rewrite List.Forall_forall in *. intros r Hr. specialize (H0 r Hr).
      unfold top_rowid. lia.
    + repeat constructor; simpl; unfold top_rowid; lia.
  - intros fid. unfold sql_delete_file_by_id.
    apply (keeps_update ids_bounded
             (fun d => mk_database (tbl_categories d)
                         (List.filter (fun r => negb (row_id r =? fid)) (tbl_files d))
                         (sqlite_sequence d))).
    intros d0 H0. unfold ids_bounded in *. simpl. apply Forall_filter_weaken. exact H0.
  - intros cid. unfold sql_delete_files_of.
    apply (keeps_update ids_bounded
             (fun d => mk_database (tbl_categories d)
                         (List.filter (fun r => negb (String.eqb (row_category_id r) cid))
                                      (tbl_files d))
                         (sqlite_sequence d))).
    intros d0 H0. unfold ids_bounded in *. simpl. apply Forall_filter_weaken. exact H0.
  - intros cid. unfold sql_delete_category.
    apply (keeps_update ids_bounded
             (fun d => mk_database
                         (List.filter (fun c => negb (String.eqb (cat_id c) cid))
                                      (tbl_categories d))
                         (tbl_files d) (sqlite_sequence d))).
    intros d0 H0. exact H0.
Qed.

Lemma db_step_grown_from d0 d d' :
  db_step d d' -> grown_from d0 d -> grown_from d0 d'.
Proof.
  apply (db_step_keeps (grown_from d0)).
  - intros cid nm by_ now. apply keeps_insert_category_if. intros d1 H1 _. exact H1.
  - intros cid fi now. apply keeps_insert_file_if. intros d1 nm sz [Hseq Hrows].
    split; simpl; [unfold top_rowid; lia|].
    intros r Hr. apply in_app_iff in Hr as [Hr|[<-|[]]]; [auto|].
    right. simpl. unfold top_rowid. lia.
  - intros fid. unfold sql_delete_file_by_id.
    apply (keeps_update (grown_from d0)
             (fun d => mk_database (tbl_categories d)
                         (List.filter (fun r => negb (row_id r =? fid)) (tbl_files d))
                         (sqlite_sequence d))).
    intros d1 [Hseq Hrows]. split; simpl; [exact Hseq|].
    intros r Hr. apply filter_In in Hr as [Hr _]. auto.
  - intros cid. unfold sql_delete_files_of.
    apply (keeps_update (grown_from d0)
             (fun d => mk_database (tbl_categories d)
                         (List.filter (fun r => negb (String.eqb (row_category_id r) cid))
                                      (tbl_files d))
                         (sqlite_sequence d))).
    intros d1 [Hseq Hrows]. split; simpl; [exact Hseq|].
    intros r Hr. apply filter_In in Hr as [Hr _]. auto.
  - intros cid. unfold sql_delete_category.
    apply (keeps_update (grown_from d0)
             (fun d => mk_database
                         (List.filter (fun c => negb (String.eqb (cat_id c) cid))
                                      (tbl_categories d))
                         (tbl_files d) (sqlite_sequence d))).
    intros d1 H1. exact H1.
Qed.

Lemma db_steps_grown_from d d' : db_steps d d' -> grown_from d d'.
Proof.
  intros H. apply (db_steps_keeps (grown_from d) (db_step_grown_from d) d d' H).
  split; [lia|auto].
Qed.

Lemma db_reachable_well_formed (d : database) :
  db_reachable d ->
  unique_categories d /\ ids_bounded d /\ List.NoDup (map row_id (tbl_files d)).
Proof.
  intros Hreach. split; [|split].
  - apply db_reachable_steps in Hreach.
    apply (db_steps_keeps unique_categories db_step_unique_categories _ _ Hreach).
    constructor.
  - apply db_reachable_steps in Hreach.
    apply (db_steps_keeps ids_bounded db_step_ids_bounded _ _ Hreach). constructor.
  - pose proof (db_reachable_sorted d Hreach) as Hs. unfold files_sorted in Hs.
    induction Hs as [|i ids _ IH Hall]; constructor; [|exact IH].
    intros Hin. rewrite List.Forall_forall in Hall. specialize (Hall i Hin). lia.
Qed.

(** ** The order of the files of a category *)








(** X1.  In every database the manager can produce, the category ids are
    pairwise different, every file id is positive and at most the
    AUTOINCREMENT counter, and the file ids are pairwise different. *)
Theorem reachable_tables_well_formed (d : database) :
  db_reachable d ->
  unique_categories d /\ ids_bounded d /\ List.NoDup (map row_id (tbl_files d)).
Proof. exact (db_reachable_well_formed d). Qed.

(** X2.  An id of [files] is never used twice.  If a row with id [i]
    existed at some point of a history and no row has that id at a later
    point, then no row has that id at any point after that. *)
Theorem file_ids_never_reused (d0 d1 d2 : database) (i : Z) :
  db_reachable d0 -> db_steps d0 d1 -> db_steps d1 d2 ->
  id_in_use d0 i -> ~ id_in_use d1 i -> ~ id_in_use d2 i.
Proof.
  intros Hreach H01 H12 (r0 & Hr0 & Hi0) Hfree (r & Hr & Hi).
  destruct (db_reachable_well_formed d0 Hreach) as (_ & Hb & _).
  unfold ids_bounded in Hb. rewrite List.Forall_forall in Hb. specialize (Hb r0 Hr0).
  destruct (db_steps_grown_from d0 d1 H01) as [Hseq01 _].
  destruct (db_steps_grown_from d1 d2 H12) as [_ Hrows].
  destruct (Hrows r Hr) as [Hold|Hnew].
  - apply Hfree. exists r. split; assumption.
  - lia.
Qed.

(** ** Reading the listing *)

Lemma dict_set_fresh {V} (k : string) (v : V) (acc : list (string * V)) :
  ~ In k (map fst acc) -> dict_set k v acc = (acc ++ [(k, v)])%list.
Proof.
  induction acc as [|[k0 v0] acc IH]; simpl; intros Hk; [reflexivity|].
  destruct (String.eqb k0 k) eqn:E.
  - apply String.eqb_eq in E. tauto.
  - f_equal. apply IH. tauto.
Qed.

Lemma sql_select_files_exact (cid : string) (c : connection) :
  sql_select_files cid c =
  match budget c with
  | None => (inr (rows_of (working c) cid), c)
  | Some O => (inl OperationalError, c)
  | Some (S k) =>
      (inr (rows_of (working c) cid), mk_connection (committed c) (working c) (Some k))
  end.
Proof.
  unfold sql_select_files, bind, storage_step, read_db, ret, rows_of.
  destruct (budget c) as [[|k]|]; reflexivity.
Qed.

Lemma get_categories_loop_exact (cd : list category_row) :
  forall (acc : list (string * category)) (c : connection),
  List.NoDup (map fst acc ++ map cat_id cd) ->
  fst (get_categories_loop cd acc c) =
  if serves (budget c) (length cd)
  then inr (acc ++ map (category_entry (working c)) cd)%list
  else inl OperationalError.
Proof.
  induction cd as [|cat_data cd IH]; intros acc c Hnd; simpl.
  - unfold ret. simpl. rewrite app_nil_r. destruct (budget c); reflexivity.
  - unfold bind. rewrite sql_select_files_exact.
    assert (Hfresh : ~ In (cat_id cat_data) (map fst acc)).
    { intros Hin. apply NoDup_remove_2 in Hnd. apply Hnd. apply in_or_app. auto. }
    assert (Hnd' : List.NoDup
                     (map fst (acc ++ [category_entry (working c) cat_data]) ++ map cat_id cd)).
    { rewrite map_app. simpl. rewrite <- app_assoc. exact Hnd. }
    destruct (budget c) as [[|k]|] eqn:Hb; simpl; [reflexivity| |].
    + fold (category_entry (working c) cat_data).
      unfold category_entry at 1. rewrite dict_set_fresh by exact Hfresh.
      fold (category_entry (working c) cat_data).
      rewrite IH by exact Hnd'. simpl. rewrite <- app_assoc. reflexivity.
    + fold (category_entry (working c) cat_data).
      unfold category_entry at 1. rewrite dict_set_fresh by exact Hfresh.
      fold (category_entry (working c) cat_data).
      rewrite IH by exact Hnd'. rewrite Hb. simpl. rewrite <- app_assoc. reflexivity.
Qed.

Lemma get_categories_exact (fault : option nat) (d : database) :
  unique_categories d ->
  get_categories fault d =
  if serves fault (S (length (tbl_categories d))) then category_listing d else [].
Proof.
  intros Hu. unfold get_categories, with_connection, sql_select_categories.
  unfold bind at 1. unfold bind at 1. unfold storage_step.
  destruct fault as [[|k]|]; simpl; [reflexivity| |].
  - unfold bind, read_db, ret. simpl.
    pose proof (get_categories_loop_exact (tbl_categories d) []
                  (mk_connection d d (Some k)) Hu) as H.
    destruct (get_categories_loop _ _ _) as [[e|dict] c']; simpl in *.
    + destruct (length (tbl_categories d) <=? k)%nat; [discriminate|reflexivity].
    + destruct (length (tbl_categories d) <=? k)%nat; [|discriminate].
      injection H as ->. reflexivity.
  - unfold bind, read_db, ret. simpl.
    pose proof (get_categories_loop_exact (tbl_categories d) []
                  (mk_connection d d None) Hu) as H.
    destruct (get_categories_loop _ _ _) as [[e|dict] c']; simpl in *; [discriminate|].
    injection H as ->. reflexivity.
Qed.

(** X3.  [get_categories] never reports a partial listing: it returns one
    entry per category, in table order, each with all files of the
    category, when the store answers the one query for the categories and
    the one query per category; otherwise it returns the empty dict. *)
Theorem get_categories_all_or_nothing (fault : option nat) (d : database) :
  unique_categories d ->
  get_categories fault d =
  if serves fault (S (length (tbl_categories d))) then category_listing d else [].
Proof. exact (get_categories_exact fault d). Qed.

Lemma dict_get_app {V} (k : string) (l1 l2 : list (string * V)) :
  dict_get k (l1 ++ l2) =
  match dict_get k l1 with Some v => Some v | None => dict_get k l2 end.
Proof.
  induction l1 as [|[k0 v0] l1 IH]; simpl; [reflexivity|].
  destruct (String.eqb k0 k); [reflexivity|exact IH].
Qed.

Lemma dict_get_absent {V} (k : string) (l : list (string * V)) :
  ~ In k (map fst l) -> dict_get k l = None.
Proof.
  induction l as [|[k0 v0] l IH]; simpl; intros H; [reflexivity|].
  destruct (String.eqb k0 k) eqn:E; [apply String.eqb_eq in E; tauto|].
  apply IH. tauto.
Qed.

Lemma category_listing_keys (d : database) :
  map fst (category_listing d) = map cat_id (tbl_categories d).
Proof.
  unfold category_listing. rewrite map_map. reflexivity.
Qed.

(** Looking a category up on a healthy store. *)
Lemma get_category_healthy (d : database) (cid : string) :
  unique_categories d ->
  get_category None d cid = dict_get cid (category_listing d).
Proof.
  intros Hu. unfold get_category. rewrite get_categories_exact by exact Hu.
  reflexivity.
Qed.

Lemma category_listing_same_files (d d' : database) :
  tbl_files d' = tbl_files d ->
  map (category_entry d') = map (category_entry d).
Proof.
  intros H. unfold category_entry, rows_of. rewrite H. reflexivity.
Qed.

(** ** Creating and looking up *)

Lemma add_category_healthy d cid nm by_ now :
  add_category None d cid nm by_ now =
  if fits_int64 by_ && negb (existsb (fun c => String.eqb (cat_id c) cid) (tbl_categories d))
  then (true, mk_database (tbl_categories d ++ [mk_category_row cid nm by_ now])%list
                (tbl_files d) (sqlite_sequence d))
  else (false, d).
Proof.
  unfold add_category, with_connection, sql_insert_category.
  destruct (fits_int64 by_); simpl; [|reflexivity].
  unfold bind, conn_commit, bind, storage_step, read_db, write_db, raise, ret. simpl.
  destruct (existsb _ _); reflexivity.
Qed.

Lemma add_category_read_back (d : database) (cid nm : string) (by_ : Z) (now : string) :
  unique_categories d ->
  fits_int64 by_ = true ->
  ~ In cid (map cat_id (tbl_categories d)) ->
  fst (add_category None d cid nm by_ now) = true
  /\ get_category None (snd (add_category None d cid nm by_ now)) cid
     = Some (mk_category nm (map file_of_row (rows_of d cid)) by_ now)
  /\ (rows_of d cid = [] ->
        get_category None (snd (add_category None d cid nm by_ now)) cid
        = Some (mk_category nm [] by_ now))
  /\ (forall other, other <> cid ->
        get_category None (snd (add_category None d cid nm by_ now)) other
        = get_category None d other).
Proof.
  intros Hu Hfit Hnew.
  assert (Hu' : unique_categories (snd (add_category None d cid nm by_ now))).
  { eapply db_step_unique_categories; [constructor|exact Hu]. }
  revert Hu'. rewrite add_category_healthy, Hfit.
  rewrite (proj2 (existsb_cat_id_false cid (tbl_categories d)) Hnew). simpl.
  intros Hu'.
  assert (Hget : forall x,
            get_category None
              (mk_database (tbl_categories d ++ [mk_category_row cid nm by_ now])%list
                 (tbl_files d) (sqlite_sequence d)) x
            = match dict_get x (category_listing d) with
              | Some v => Some v
              | None => if String.eqb cid x
                        then Some (mk_category nm (map file_of_row (rows_of d cid)) by_ now)
                        else None
              end).
  { intros x. rewrite get_category_healthy by exact Hu'.
    unfold category_listing. simpl tbl_categories.
    rewrite (category_listing_same_files d
               (mk_database (tbl_categories d ++ [mk_category_row cid nm by_ now])%list
                  (tbl_files d) (sqlite_sequence d)) eq_refl).
    rewrite map_app, dict_get_app. simpl. reflexivity. }
  split; [reflexivity|].
  assert (Hcid : get_category None
                   (mk_database (tbl_categories d ++ [mk_category_row cid nm by_ now])%list
                      (tbl_files d) (sqlite_sequence d)) cid
                 = Some (mk_category nm (map file_of_row (rows_of d cid)) by_ now)).
  { rewrite Hget, dict_get_absent, String.eqb_refl; [reflexivity|].
    rewrite category_listing_keys. exact Hnew. }
  split; [exact Hcid|]. split.
  - intros Hnone. rewrite Hcid, Hnone. reflexivity.
  - intros other Hother. rewrite Hget, get_category_healthy by exact Hu.
    destruct (dict_get other (category_listing d)); [reflexivity|].
    destruct (String.eqb cid other) eqn:E; [|reflexivity].
    apply String.eqb_eq in E. congruence.
Qed.

(** X4.  On a healthy store a category with a new id and a creator id that
    fits an SQLite integer is created, and looking it up returns the name,
    creator and time given, together with whatever files are already keyed
    to that id (none, when no row is); every other category reads as
    before. *)
Theorem add_category_then_get (d : database) (cid nm : string) (by_ : Z) (now : string) :
  unique_categories d ->
  fits_int64 by_ = true ->
  ~ In cid (map cat_id (tbl_categories d)) ->
  fst (add_category None d cid nm by_ now) = true
  /\ get_category None (snd (add_category None d cid nm by_ now)) cid
     = Some (mk_category nm (map file_of_row (rows_of d cid)) by_ now)
  /\ (rows_of d cid = [] ->
        get_category None (snd (add_category None d cid nm by_ now)) cid
        = Some (mk_category nm [] by_ now))
  /\ (forall other, other <> cid ->
        get_category None (snd (add_category None d cid nm by_ now)) other
        = get_category None d other).
Proof. exact (add_category_read_back d cid nm by_ now). Qed.

(** ** Deleting the file at a position *)

Lemma filter_id_absent (fid : Z) (l : list file_row) :
  ~ In fid (map row_id l) ->
  List.filter (fun r => negb (row_id r =? fid)) l = l.
Proof.
  induction l as [|x l IH]; simpl; intros H; [reflexivity|].
  destruct (row_id x =? fid) eqn:E; [apply Z.eqb_eq in E; tauto|].
  simpl. f_equal. apply IH. tauto.
Qed.

Lemma filter_id_removes (l : list file_row) :
  List.NoDup (map row_id l) ->
  forall (p : nat) (r : file_row), nth_error l p = Some r ->
  List.filter (fun x => negb (row_id x =? row_id r)) l = remove_at p l.
Proof.
  induction l as [|x l IH]; simpl; intros Hnd p r Hp; [destruct p; discriminate|].
  apply List.NoDup_cons_iff in Hnd as [Hx Hnd].
  destruct p as [|p]; simpl in *.
  - injection Hp as ->. rewrite Z.eqb_refl. simpl. apply filter_id_absent. exact Hx.
  - destruct (row_id x =? row_id r) eqn:E; simpl.
    + apply Z.eqb_eq in E. exfalso. apply Hx. rewrite E.
      apply in_map. eapply nth_error_In. exact Hp.
    + f_equal. apply IH; assumption.
Qed.

Lemma filter_swap {A} (f g : A -> bool) (l : list A) :
  List.filter f (List.filter g l) = List.filter g (List.filter f l).
Proof.
  induction l as [|x l IH]; simpl; [reflexivity|].
  destruct (f x) eqn:Ef, (g x) eqn:Eg; simpl; rewrite ?Ef, ?Eg, IH; reflexivity.
Qed.

Lemma py_index_position {A} (l : list A) (i : Z) :
  - Z.of_nat (length l) <= i < Z.of_nat (length l) ->
  py_index l i = nth_error l (Z.to_nat (i mod Z.of_nat (length l))).
Proof.
  intros Hi. unfold py_index. destruct (0 <=? i) eqn:E.
  - apply Z.leb_le in E. rewrite Z.mod_small by lia. reflexivity.
  - apply Z.leb_gt in E.
    replace (0 <=? i + Z.of_nat (length l)) with true by (symmetry; apply Z.leb_le; lia).
    f_equal. f_equal.
    apply (Z.mod_unique i (Z.of_nat (length l)) (-1)); [left; lia|lia].
Qed.

Lemma remove_at_map {A B} (f : A -> B) (p : nat) (l : list A) :
  map f (remove_at p l) = remove_at p (map f l).
Proof.
  revert p. induction l as [|x l IH]; intros [|p]; simpl; try reflexivity.
  f_equal. apply IH.
Qed.

Lemma rows_of_sorted (d : database) (cid : string) :
  files_sorted d -> StronglySorted Z.lt (map row_id (rows_of d cid)).
Proof. intros H. unfold rows_of. apply sorted_filter. exact H. Qed.

Lemma sorted_ids_NoDup (ids : list Z) : StronglySorted Z.lt ids -> List.NoDup ids.
Proof.
  induction 1 as [|i ids _ IH Hall]; constructor; [|exact IH].
  intros Hin. rewrite List.Forall_forall in Hall. specialize (Hall i Hin). lia.
Qed.

(** [delete_file] on a healthy store, in full. *)
Lemma delete_file_healthy (d : database) (cid : string) (i : Z) :
  files_sorted d ->
  delete_file None d cid i =
  if Z.of_nat (length (rows_of d cid)) <=? i then (false, d)
  else match py_index (map row_id (rows_of d cid)) i with
       | None => (false, d)
       | Some fid =>
           (true, mk_database (tbl_categories d)
                    (List.filter (fun r => negb (row_id r =? fid)) (tbl_files d))
                    (sqlite_sequence d))
       end.
Proof.
  intros Hs. unfold delete_file, with_connection, sql_select_file_ids, sql_delete_file_by_id.
  unfold conn_commit, bind, storage_step, read_db, write_db, ret, raise. simpl.
  fold (rows_of d cid). rewrite order_by_id_sorted by (apply rows_of_sorted; exact Hs).
  rewrite length_map.
  destruct (_ <=? i); [reflexivity|].
  destruct (py_index _ i); reflexivity.
Qed.

Lemma dict_get_listing (d : database) (cid : string) :
  dict_get cid (category_listing d) =
  option_map (fun c => snd (category_entry d c))
    (find (fun c => String.eqb (cat_id c) cid) (tbl_categories d)).
Proof.
  unfold category_listing. induction (tbl_categories d) as [|c cats IH]; simpl;
    [reflexivity|].
  destruct (String.eqb (cat_id c) cid); [reflexivity|exact IH].
Qed.

(** A category read on a healthy store is its row and its rows of files. *)
Lemma get_category_row (d : database) (cid : string) (cat : category) :
  unique_categories d ->
  get_category None d cid = Some cat ->
  exists c, find (fun c => String.eqb (cat_id c) cid) (tbl_categories d) = Some c
            /\ cat = mk_category (cat_name c) (map file_of_row (rows_of d cid))
                       (cat_created_by c) (cat_created_at c).
Proof.
  intros Hu. rewrite get_category_healthy by exact Hu. rewrite dict_get_listing.
  destruct (find _ _) as [c|] eqn:Hfind; simpl; [|discriminate].
  intros [= <-]. exists c. split; [reflexivity|].
  apply find_some in Hfind as [_ E]. apply String.eqb_eq in E. rewrite <- E. reflexivity.
Qed.

Lemma delete_file_position (d : database) (cid : string) (i : Z) :
  db_reachable d ->
  - Z.of_nat (length (rows_of d cid)) <= i < Z.of_nat (length (rows_of d cid)) ->
  let p := Z.to_nat (i mod Z.of_nat (length (rows_of d cid))) in
  let d' := snd (delete_file None d cid i) in
  fst (delete_file None d cid i) = true
  /\ rows_of d' cid = remove_at p (rows_of d cid)
  /\ (forall other, other <> cid -> rows_of d' other = rows_of d other)
  /\ tbl_categories d' = tbl_categories d
  /\ (forall cat, get_category None d cid = Some cat ->
        get_category None d' cid
        = Some (mk_category (name cat) (remove_at p (files cat))
                            (created_by cat) (created_at cat))).
Proof.
  intros Hreach Hi p d'. subst p d'.
  pose proof (db_reachable_sorted d Hreach) as Hs.
  destruct (db_reachable_well_formed d Hreach) as (Hu & _ & Hnd).
  assert (Hu' : unique_categories (snd (delete_file None d cid i))).
  { eapply db_step_unique_categories; [constructor|exact Hu]. }
  revert Hu'. rewrite delete_file_healthy by exact Hs.
  destruct (Z.of_nat (length (rows_of d cid)) <=? i) eqn:E; [apply Z.leb_le in E; lia|].
  rewrite py_index_position by (rewrite length_map; exact Hi).
  rewrite length_map, nth_error_map.
  set (p := Z.to_nat (i mod Z.of_nat (length (rows_of d cid)))).
  assert (Hp : (p < length (rows_of d cid))%nat).
  { subst p. pose proof (Z.mod_pos_bound i (Z.of_nat (length (rows_of d cid)))). lia. }
  destruct (nth_error (rows_of d cid) p) as [r|] eqn:Hr;
    [|apply nth_error_None in Hr; lia].
  simpl. intros Hu'.
  assert (Hrcat : row_category_id r = cid).
  { apply nth_error_In in Hr. unfold rows_of in Hr. apply filter_In in Hr as [_ Hr].
    apply String.eqb_eq in Hr. exact Hr. }
  assert (Hrows : rows_of (mk_database (tbl_categories d)
                             (List.filter (fun x => negb (row_id x =? row_id r)) (tbl_files d))
                             (sqlite_sequence d)) cid
                  = remove_at p (rows_of d cid)).
  { unfold rows_of at 1. simpl. rewrite filter_swap. fold (rows_of d cid).
    apply filter_id_removes; [|exact Hr].
    apply sorted_ids_NoDup, rows_of_sorted. exact Hs. }
  split; [reflexivity|]. split; [exact Hrows|]. split; [|split; [reflexivity|]].
  - intros other Hother. unfold rows_of at 1. simpl. rewrite filter_swap.
    fold (rows_of d other). apply filter_id_absent.
    intros Hin. apply in_map_iff in Hin as (x & Hx & Hxin).
    assert (x = r) as ->.
    { unfold rows_of in Hxin. apply filter_In in Hxin as [Hxin _].
      apply nth_error_In in Hr. unfold rows_of in Hr. apply filter_In in Hr as [Hr _].
      clear -Hnd Hx Hxin Hr. revert Hnd Hx Hxin Hr.
      induction (tbl_files d) as [|y l IH]; simpl; [tauto|].
      intros Hnd Hx [->|Hxin] [Hr|Hr]; try congruence.
      - apply List.NoDup_cons_iff in Hnd as [Hy _]. exfalso. apply Hy.
        rewrite Hx. apply in_map. exact Hr.
      - subst y. apply List.NoDup_cons_iff in Hnd as [Hy _]. exfalso. apply Hy.
        rewrite <- Hx. apply in_map. exact Hxin.
      - apply List.NoDup_cons_iff in Hnd as [_ Hnd]. apply IH; assumption. }
    unfold rows_of in Hxin. apply filter_In in Hxin as [_ Hxin].
    apply String.eqb_eq in Hxin. congruence.
  - intros cat Hcat.
    destruct (get_category_row d cid cat Hu Hcat) as (c & Hfind & ->). simpl.
    rewrite get_category_healthy by exact Hu'. rewrite dict_get_listing. simpl.
    rewrite Hfind. simpl. apply find_some in Hfind as [_ Ec].
    apply String.eqb_eq in Ec. rewrite Ec, Hrows, remove_at_map. reflexivity.
Qed.

(** X5.  In a database the manager can produce, on a healthy store,
    [delete_file] with an index inside Python's range for the category's
    list, [-len <= index < len], returns [True] and removes exactly the
    file at position [index mod len] of the category as [get_category]
    reports it; the files after it move up by one and every other
    category keeps its files. *)
Theorem delete_file_removes_position (d : database) (cid : string) (i : Z) :
  db_reachable d ->
  - Z.of_nat (length (rows_of d cid)) <= i < Z.of_nat (length (rows_of d cid)) ->
  let p := Z.to_nat (i mod Z.of_nat (length (rows_of d cid))) in
  let d' := snd (delete_file None d cid i) in
  fst (delete_file None d cid i) = true
  /\ rows_of d' cid = remove_at p (rows_of d cid)
  /\ (forall other, other <> cid -> rows_of d' other = rows_of d other)
  /\ tbl_categories d' = tbl_categories d
  /\ (forall cat, get_category None d cid = Some cat ->
        get_category None d' cid
        = Some (mk_category (name cat) (remove_at p (files cat))
                            (created_by cat) (created_at cat))).
Proof. exact (delete_file_position d cid i). Qed.

(** ** Deleting a category *)

Lemma delete_category_exact (fault : option nat) (d : database) (cid : string) :
  delete_category fault d cid =
  if serves fault 3 then (true, without_category d cid) else (false, d).
Proof.
  unfold delete_category, with_connection, sql_delete_files_of, sql_delete_category.
  unfold conn_commit, bind, storage_step, read_db, write_db, ret, raise, without_category.
  destruct fault as [[|[|[|k]]]|]; reflexivity.
Qed.

Lemma rows_of_without_same (d : database) (cid : string) :
  rows_of (without_category d cid) cid = [].
Proof.
  unfold rows_of, without_category. simpl.
  induction (tbl_files d) as [|r l IH]; simpl; [reflexivity|].
  destruct (String.eqb (row_category_id r) cid) eqn:E; simpl; [exact IH|].
  rewrite E. exact IH.
Qed.

Lemma rows_of_without_other (d : database) (cid other : string) :
  other <> cid -> rows_of (without_category d cid) other = rows_of d other.
Proof.
  intros Hne. unfold rows_of, without_category. simpl.
  induction (tbl_files d) as [|r l IH]; simpl; [reflexivity|].
  destruct (String.eqb (row_category_id r) cid) eqn:E; simpl.
  - apply String.eqb_eq in E.
    destruct (String.eqb (row_category_id r) other) eqn:E'; [|exact IH].
    apply String.eqb_eq in E'. congruence.
  - destruct (String.eqb (row_category_id r) other); [f_equal|]; exact IH.
Qed.

Lemma find_without (cats : list category_row) (cid other : string) :
  find (fun c => String.eqb (cat_id c) other)
       (List.filter (fun c => negb (String.eqb (cat_id c) cid)) cats)
  = if String.eqb other cid then None
    else find (fun c => String.eqb (cat_id c) other) cats.
Proof.
  induction cats as [|c cats IH]; simpl; [destruct (String.eqb other cid); reflexivity|].
  destruct (String.eqb (cat_id c) cid) eqn:E; simpl.
  - rewrite IH. apply String.eqb_eq in E.
    destruct (String.eqb other cid) eqn:E'; [reflexivity|].
    destruct (String.eqb (cat_id c) other) eqn:E''; [|reflexivity].
    apply String.eqb_eq in E''. apply String.eqb_neq in E'. congruence.
  - destruct (String.eqb (cat_id c) other) eqn:E''; [|exact IH].
    apply String.eqb_eq in E''. subst other. rewrite E. reflexivity.
Qed.

Lemma delete_category_effect (fault : option nat) (d : database) (cid : string) :
  unique_categories d ->
  delete_category fault d cid
  = (if serves fault 3 then (true, without_category d cid) else (false, d))
  /\ rows_of (without_category d cid) cid = []
  /\ get_category None (without_category d cid) cid = None
  /\ (forall f i, delete_file f (without_category d cid) cid i
                  = (false, without_category d cid))
  /\ (forall other, other <> cid ->
        rows_of (without_category d cid) other = rows_of d other
        /\ get_category None (without_category d cid) other = get_category None d other).
Proof.
  intros Hu.
  assert (Hu' : unique_categories (without_category d cid)).
  { unfold unique_categories, without_category. simpl. apply NoDup_map_filter. exact Hu. }
  split; [apply delete_category_exact|]. split; [apply rows_of_without_same|].
  split; [|split].
  - rewrite get_category_healthy by exact Hu'. rewrite dict_get_listing.
    unfold without_category at 2. simpl. rewrite find_without.
    rewrite String.eqb_refl. reflexivity.
  - intros f i. apply delete_file_out_of_range.
    rewrite rows_of_without_same. simpl. lia.
  - intros other Hother. split; [apply rows_of_without_other; exact Hother|].
    rewrite !get_category_healthy by assumption. rewrite !dict_get_listing.
    unfold without_category at 2. simpl. rewrite find_without.
    destruct (String.eqb other cid) eqn:E; [apply String.eqb_eq in E; congruence|].
    destruct (find _ (tbl_categories d)) as [c|] eqn:Hfind; [|reflexivity].
    simpl. apply find_some in Hfind as [_ Ec]. apply String.eqb_eq in Ec.
    unfold category_entry. simpl. rewrite Ec.
    rewrite rows_of_without_other by exact Hother. reflexivity.
Qed.

(** X6.  [delete_category] is all-or-nothing: when the store answers its
    three statements it returns [True] and the category is gone together
    with every file keyed to it, whether or not the category existed;
    otherwise it returns [False] and nothing is deleted.  After a deletion
    the category is not found, [delete_file] on it fails for every index,
    and every other category reads as before. *)
Theorem delete_category_all_or_nothing (fault : option nat) (d : database) (cid : string) :
  unique_categories d ->
  delete_category fault d cid
  = (if serves fault 3 then (true, without_category d cid) else (false, d))
  /\ rows_of (without_category d cid) cid = []
  /\ get_category None (without_category d cid) cid = None
  /\ (forall f i, delete_file f (without_category d cid) cid i
                  = (false, without_category d cid))
  /\ (forall other, other <> cid ->
        rows_of (without_category d cid) other = rows_of d other
        /\ get_category None (without_category d cid) other = get_category None d other).
Proof. exact (delete_category_effect fault d cid). Qed.

(** ** One file or many *)

(** X7.  [add_file_to_category] does what [add_files_to_category] does
    with a list of that one file, on every store. *)
Theorem add_file_is_add_files_of_one (fault : option nat) (d : database)
    (cid : string) (fi : file_info) (now : string) :
  add_file_to_category fault d cid fi now = add_files_to_category fault d cid [fi] now.
Proof.
  unfold add_file_to_category, add_files_to_category, with_connection. simpl.
  unfold bind, ret.
  destruct (sql_insert_file cid fi now (mk_connection d d fault)) as [[e|[]] c];
    reflexivity.
Qed.

(** ** Appending and reading back *)

Lemma add_files_read_back (d : database) (cid : string) (fs : list file_info)
    (now : string) (cat : category) :
  unique_categories d ->
  forallb storable fs = true ->
  top_rowid d + Z.of_nat (length fs) <= INT64_MAX ->
  get_category None d cid = Some cat ->
  fst (add_files_to_category None d cid fs now) = true
  /\ get_category None (snd (add_files_to_category None d cid fs now)) cid
     = Some (mk_category (name cat) (files cat ++ fs) (created_by cat) (created_at cat))
  /\ (forall other, other <> cid ->
        get_category None (snd (add_files_to_category None d cid fs now)) other
        = get_category None d other).
Proof.
  intros Hu Hall Htop Hcat.
  pose proof (add_files_to_category_succeeds d cid fs now Hall Htop) as Hok.
  assert (Hu' : unique_categories (snd (add_files_to_category None d cid fs now))).
  { eapply db_step_unique_categories; [constructor|exact Hu]. }
  revert Hok Hu'.
  destruct (add_files_to_category_run None d cid fs now) as [->|[_ ->]];
    [discriminate|]. simpl. intros _ Hu'.
  split; [reflexivity|].
  destruct (get_category_row d cid cat Hu Hcat) as (c & Hfind & ->). simpl.
  split.
  - rewrite get_category_healthy by exact Hu'. rewrite dict_get_listing. simpl.
    rewrite Hfind. simpl. apply find_some in Hfind as [_ Ec].
    apply String.eqb_eq in Ec. rewrite Ec, rows_of_app_fresh, map_app.
    rewrite fresh_rows_contents by exact Hall. reflexivity.
  - intros other Hother. rewrite !get_category_healthy by assumption.
    rewrite !dict_get_listing. cbn [tbl_categories].
    destruct (find (fun c0 => String.eqb (cat_id c0) other) (tbl_categories d))
      as [c'|] eqn:Hfind'; [|reflexivity].
    apply find_some in Hfind' as [_ Ec']. apply String.eqb_eq in Ec'.
    unfold category_entry. cbn [option_map snd]. rewrite Ec'.
    rewrite rows_of_app_other by exact Hother. reflexivity.
Qed.

(** X8.  On a healthy store with room in the id counter, appending files
    that all have a name and a size to an existing category succeeds, and
    the category then reads as its old files followed by the new ones, in
    the order given and with every field as given; every other category
    reads as before. *)
Theorem add_files_then_get (d : database) (cid : string) (fs : list file_info)
    (now : string) (cat : category) :
  unique_categories d ->
  forallb storable fs = true ->
  top_rowid d + Z.of_nat (length fs) <= INT64_MAX ->
  get_category None d cid = Some cat ->
  fst (add_files_to_category None d cid fs now) = true
  /\ get_category None (snd (add_files_to_category None d cid fs now)) cid
     = Some (mk_category (name cat) (files cat ++ fs) (created_by cat) (created_at cat))
  /\ (forall other, other <> cid ->
        get_category None (snd (add_files_to_category None d cid fs now)) other
        = get_category None d other).
Proof. exact (add_files_read_back d cid fs now cat). Qed.

(** ** Collecting documents *)

Lemma handle_document_appends (st : bot_state) (user_id : Z) (doc : document)
    (cap : option string) (info : upload_info) :
  pending_uploads st !! user_id = Some info ->
  after (handle_document st user_id doc cap)
  = mk_bot_state (db st)
      (<[user_id := mk_upload_info (upload_category_id info)
                      (upload_files info ++ [file_info_of doc cap])]> (pending_uploads st)).
Proof. intros H. unfold handle_document. rewrite H. reflexivity. Qed.

Lemma submit_documents_run (st : bot_state) (user_id : Z)
    (messages : list (document * option string)) :
  match pending_uploads st !! user_id with
  | Some info =>
      pending_uploads (submit_documents st user_id messages) !! user_id
      = Some (mk_upload_info (upload_category_id info)
                (upload_files info ++ map (fun m => file_info_of (fst m) (snd m)) messages))
      /\ db (submit_documents st user_id messages) = db st
      /\ (forall other, other <> user_id ->
            pending_uploads (submit_documents st user_id messages) !! other
            = pending_uploads st !! other)
  | None => submit_documents st user_id messages = st
  end.
Proof.
  revert st. induction messages as [|[doc cap] messages IH]; intros st.
  - simpl. destruct (pending_uploads st !! user_id) as [info|] eqn:H; [|reflexivity].
    rewrite app_nil_r. destruct info. auto.
  - unfold submit_documents. simpl fold_left.
    fold (submit_documents (after (handle_document st user_id doc cap)) user_id messages).
    specialize (IH (after (handle_document st user_id doc cap))).
    destruct (pending_uploads st !! user_id) as [info|] eqn:H.
    + rewrite (handle_document_appends st user_id doc cap info H) in *.
      simpl in IH. rewrite lookup_insert_eq in IH. simpl in IH.
      destruct IH as (IH1 & IH2 & IH3).
      split; [|split].
      * rewrite IH1. rewrite <- app_assoc. reflexivity.
      * exact IH2.
      * intros other Hother. rewrite IH3 by exact Hother.
        apply lookup_insert_ne. congruence.
    + assert (Hsame : after (handle_document st user_id doc cap) = st).
      { unfold handle_document. rewrite H. reflexivity. }
      rewrite Hsame in *. rewrite H in IH. exact IH.
Qed.

(** X9.  Document messages of a caller with an upload in progress are
    collected in the order they arrive, each with its caption or the empty
    string; the target category, the database and the uploads of other
    callers are left alone.  For a caller without an upload in progress the
    messages change nothing. *)
Theorem documents_accumulate (st : bot_state) (user_id : Z)
    (messages : list (document * option string)) :
  match pending_uploads st !! user_id with
  | Some info =>
      pending_uploads (submit_documents st user_id messages) !! user_id
      = Some (mk_upload_info (upload_category_id info)
                (upload_files info ++ map (fun m => file_info_of (fst m) (snd m)) messages))
      /\ db (submit_documents st user_id messages) = db st
      /\ (forall other, other <> user_id ->
            pending_uploads (submit_documents st user_id messages) !! other
            = pending_uploads st !! other)
  | None => submit_documents st user_id messages = st
  end.
Proof. exact (submit_documents_run st user_id messages). Qed.

(** ** A whole upload *)

Section Upload.

Variable ADMIN_IDS : list Z.
Variable BOT_USERNAME : string.

(** X10.  An admin sends [/upload] for an existing category, then document
    messages that each carry a name and a size, then [/finish_upload], on
    a healthy store with room in the id counter.  The bot reports the
    number of documents, the upload is closed, and the category reads as
    its old files followed by the documents in the order sent, whatever
    the admin had collected, and not committed, before. *)
Theorem upload_then_finish (st : bot_state) (user_id : Z) (cid : string)
    (rest : list string) (messages : list (document * option string))
    (env : environment) (cat : category) :
  is_admin ADMIN_IDS user_id = true ->
  unique_categories (db st) ->
  env_fault1 env = None ->
  get_category None (db st) cid = Some cat ->
  messages <> [] ->
  forallb storable (map (fun m => file_info_of (fst m) (snd m)) messages) = true ->
  top_rowid (db st) + Z.of_nat (length messages) <= INT64_MAX ->
  let s1 := after (upload_command ADMIN_IDS st user_id (cid :: rest) env) in
  let s2 := submit_documents s1 user_id messages in
  let o := finish_upload BOT_USERNAME s2 user_id env in
  sent o = [ReplyText (MsgFilesAdded (length messages)
                         (generate_category_link BOT_USERNAME cid))]
  /\ pending_uploads (after o) !! user_id = None
  /\ get_category None (db (after o)) cid
     = Some (mk_category (name cat)
               (files cat ++ map (fun m => file_info_of (fst m) (snd m)) messages)
               (created_by cat) (created_at cat)).
Proof.
  intros Hadmin Hu Henv Hcat Hne Hall Htop s1 s2 o.
  assert (Hs1 : s1 = mk_bot_state (db st)
                       (<[user_id := mk_upload_info cid []]> (pending_uploads st))).
  { subst s1. unfold upload_command. rewrite Hadmin, Henv, Hcat. reflexivity. }
  assert (Hlook : pending_uploads s1 !! user_id = Some (mk_upload_info cid [])).
  { rewrite Hs1. apply lookup_insert_eq. }
  pose proof (submit_documents_run s1 user_id messages) as Hrun. fold s2 in Hrun.
  rewrite Hlook in Hrun.
  destruct Hrun as (Hpend & Hdb & _). simpl in Hpend.
  assert (Hdb2 : db s2 = db st) by (rewrite Hdb, Hs1; reflexivity).
  set (fs := map (fun m => file_info_of (fst m) (snd m)) messages) in *.
  assert (Hlen : length fs = length messages) by (subst fs; apply length_map).
  destruct (add_files_read_back (db st) cid fs (env_now env) cat Hu Hall)
    as (Hok & Hget & _); [rewrite Hlen; exact Htop|exact Hcat|].
  subst o. unfold finish_upload. rewrite Hpend. simpl upload_category_id.
  simpl upload_files. rewrite Hdb2, Henv.
  destruct fs as [|fi fs'] eqn:Hfs.
  { destruct messages; [congruence|discriminate Hfs]. }
  destruct (add_files_to_category None (db st) cid (fi :: fs') (env_now env))
    as [ok d'] eqn:Hadd. simpl in Hok, Hget. subst ok. simpl.
  split; [rewrite <- Hlen; reflexivity|]. split; [apply lookup_delete_eq|exact Hget].
Qed.

End Upload.

(** ** Tokens of the buttons *)

Lemma pretty_N_char_digit (y : N) :
  (y < 10)%N -> digit_val (pretty_N_char y) = Some (Z.of_N y).
Proof.
  intros Hy.
  assert (y = 0 \/ y = 1 \/ y = 2 \/ y = 3 \/ y = 4 \/ y = 5 \/ y = 6 \/ y = 7
          \/ y = 8 \/ y = 9)%N as H by lia.
  repeat (destruct H as [->|H]; [reflexivity|]). subst y. reflexivity.
Qed.

Lemma pretty_N_char_plain (y : N) :
  is_space (pretty_N_char y) = false
  /\ Ascii.eqb (pretty_N_char y) "-" = false
  /\ Ascii.eqb (pretty_N_char y) "+" = false.
Proof. unfold pretty_N_char. repeat case_match; repeat split. Qed.

Lemma parse_digits_digit (acc : Z) (a : ascii) (r : string) (v : Z) :
  digit_val a = Some v -> parse_digits acc (String a r) = parse_digits (10 * acc + v) r.
Proof. intros H. simpl. rewrite H. reflexivity. Qed.

(** Reading the digits that [pretty_N_go] wrote gives the number back. *)
Lemma parse_digits_pretty_N_go (x : N) :
  forall s, exists k : Z, 0 <= k /\
    forall acc, parse_digits acc (pretty_N_go x s)
                = parse_digits (acc * 10 ^ k + Z.of_N x) s.
Proof.
  induction (N.lt_wf_0 x) as [x _ IH]. intros s.
  destruct (N.eq_dec x 0%N) as [->|Hx].
  - exists 0. split; [lia|]. intros acc. rewrite pretty_N_go_0. f_equal. simpl. lia.
  - rewrite pretty_N_go_step by lia.
    destruct (IH (x `div` 10)%N (N.div_lt x 10 ltac:(lia) ltac:(lia))
                (String (pretty_N_char (x `mod` 10)) s)) as (k & Hk & Hread).
    exists (k + 1). split; [lia|]. intros acc. rewrite Hread.
    rewrite (parse_digits_digit _ _ _ (Z.of_N (x `mod` 10)))
      by (apply pretty_N_char_digit; apply N.mod_lt; lia).
    f_equal. rewrite Z.pow_add_r by lia. rewrite N2Z.inj_div, N2Z.inj_mod.
    change (Z.of_N 10) with 10. pose proof (Z.div_mod (Z.of_N x) 10 ltac:(lia)). lia.
Qed.

Lemma pretty_N_go_head (x : N) :
  (0 < x)%N -> forall s, exists y s', pretty_N_go x s = String (pretty_N_char y) s'.
Proof.
  induction (N.lt_wf_0 x) as [x _ IH]. intros Hx s.
  rewrite pretty_N_go_step by exact Hx.
  destruct (N.eq_dec (x `div` 10)%N 0%N) as [E|E].
  - rewrite E, pretty_N_go_0. eauto.
  - apply IH; [apply N.div_lt; lia|]. apply N.neq_0_lt_0. exact E.
Qed.

(** [int(str(n))] is [n]. *)
Lemma py_int_str_of_nat (n : nat) : py_int (str_of_nat n) = Some (Z.of_nat n).
Proof.
  unfold str_of_nat, pretty, pretty_nat, pretty, pretty_N.
  destruct (decide (N.of_nat n = 0%N)) as [E|E].
  - replace n with O by lia. reflexivity.
  - destruct (pretty_N_go_head (N.of_nat n) ltac:(lia) "") as (y & s' & Hhead).
    destruct (parse_digits_pretty_N_go (N.of_nat n) "") as (k & _ & Hread).
    specialize (Hread 0). rewrite Hhead in Hread.
    destruct (pretty_N_char_plain y) as (Hsp & Hminus & Hplus).
    unfold py_int. rewrite Hhead. simpl lstrip. rewrite Hsp, Hminus, Hplus.
    unfold parse_unsigned.
    destruct (digit_val (pretty_N_char y)) as [v|] eqn:Hv.
    + rewrite (parse_digits_digit 0 _ _ v Hv) in Hread.
      replace (10 * 0 + v) with v in Hread by lia. rewrite Hread. simpl.
      f_equal. lia.
    + exfalso. revert Hv. unfold pretty_N_char. repeat case_match; discriminate.
Qed.

Lemma split_once_at_separator (a : ascii) (s rest : string) :
  has_char a s = false ->
  split_once a (s ++ String a rest) = [s; rest].
Proof.
  induction s as [|b s IH]; simpl; intros H.
  - rewrite Ascii.eqb_refl. reflexivity.
  - apply orb_false_iff in H as [Hb Hs]. rewrite Hb, (IH Hs). reflexivity.
Qed.

Lemma nth_error_enumerate_from {A} (l : list A) (start k : nat) :
  nth_error (enumerate_from start l) k
  = option_map (fun x => ((start + k)%nat, x)) (nth_error l k).
Proof.
  revert start k. induction l as [|x l IH]; intros start [|k]; simpl; try reflexivity.
  - rewrite Nat.add_0_r. reflexivity.
  - rewrite IH. rewrite Nat.add_succ_r. reflexivity.
Qed.

Section Tokens.

Variable ADMIN_IDS : list Z.


(** X12.  The button that [show_files_for_deletion] puts next to the
    [k]-th file of a category carries that file's name, and its callback
    data lead an admin to [delete_file_from_category] for that category
    and index [k], provided the category id contains no underscore (the
    data are split at the first one). *)
Theorem delete_buttons_decode (st : bot_state) (user_id : Z) (cid : string)
    (cat : category) (k : nat) (fi : file_info) (env env' : environment) :
  is_admin ADMIN_IDS user_id = true ->
  has_char "_" cid = false ->
  get_category (env_fault1 env) (db st) cid = Some cat ->
  nth_error (files cat) k = Some fi ->
  exists buttons,
    sent (show_files_for_deletion st cid env)
      = [EditMessageText (MsgChooseFileToDelete buttons)]
    /\ nth_error buttons k
       = Some (file_name fi, ("del_file_" ++ cid ++ "_" ++ str_of_nat k)%string)
    /\ button_handler ADMIN_IDS st user_id
         ("del_file_" ++ cid ++ "_" ++ str_of_nat k) env'
       = after_sending [AnswerQuery]
           (delete_file_from_category st cid (Z.of_nat k) env').
Proof.
  intros Hadmin Hcid Hcat Hk.
  unfold show_files_for_deletion. rewrite Hcat.
  destruct (files cat) as [|f0 fs] eqn:Hfiles; [destruct k; discriminate|].
  eexists. split; [reflexivity|]. split.
  - rewrite nth_error_map, nth_error_enumerate_from, Hk. reflexivity.
  - unfold button_handler. rewrite Hadmin. cbn [negb].
    change (startswith ("del_file_" ++ cid ++ "_" ++ str_of_nat k) "view_") with false.
    change (startswith ("del_file_" ++ cid ++ "_" ++ str_of_nat k) "add_") with false.
    change (startswith ("del_file_" ++ cid ++ "_" ++ str_of_nat k) "delete_file_")
      with false.
    change (startswith ("del_file_" ++ cid ++ "_" ++ str_of_nat k) "delete_cat_")
      with false.
    change (startswith ("del_file_" ++ cid ++ "_" ++ str_of_nat k) "confirm_del_cat_")
      with false.
    cbn iota.
    rewrite (startswith_prefix "del_file_" (cid ++ "_" ++ str_of_nat k)).
    change (slice_from 9 ("del_file_" ++ cid ++ "_" ++ str_of_nat k))
      with (slice_from (String.length "del_file_")
              ("del_file_" ++ (cid ++ "_" ++ str_of_nat k))).
    rewrite slice_from_prefix.
    change (cid ++ "_" ++ str_of_nat k)%string
      with (cid ++ String "_" (str_of_nat k))%string.
    rewrite (split_once_at_separator "_" cid (str_of_nat k) Hcid).
    cbn [nth_error]. rewrite py_int_str_of_nat. reflexivity.
Qed.

End Tokens.

(** ** Reading the configuration *)

Lemma digit_char_plain (a : ascii) (v : Z) :
  digit_val a = Some v ->
  Ascii.eqb a "," = false /\ Ascii.eqb a " " = false /\ is_str_space a = false.
Proof.
  destruct a as [[] [] [] [] [] [] [] []]; intros H; try discriminate H; repeat split.
Qed.

Lemma all_digits_pretty_N_go (x : N) :
  forall s, all_digits s = true -> all_digits (pretty_N_go x s) = true.
Proof.
  induction (N.lt_wf_0 x) as [x _ IH]. intros s Hs.
  destruct (N.eq_dec x 0%N) as [->|Hx]; [rewrite pretty_N_go_0; exact Hs|].
  rewrite pretty_N_go_step by lia. apply IH; [apply N.div_lt; lia|].
  simpl. rewrite pretty_N_char_digit by (apply N.mod_lt; lia). exact Hs.
Qed.

Lemma str_of_nat_digits (n : nat) :
  all_digits (str_of_nat n) = true /\ str_of_nat n <> EmptyString.
Proof.
  unfold str_of_nat, pretty, pretty_nat, pretty, pretty_N.
  destruct (decide (N.of_nat n = 0%N)) as [E|E]; [split; [reflexivity|discriminate]|].
  split; [apply all_digits_pretty_N_go; reflexivity|].
  destruct (pretty_N_go_head (N.of_nat n) ltac:(lia) "") as (y & s' & ->). discriminate.
Qed.

Lemma all_digits_no_char (d : string) :
  all_digits d = true ->
  has_char "," d = false /\ replace_spaces d = d /\ lstrip_str d = d /\ rstrip_str d = d.
Proof.
  induction d as [|a d IH]; simpl; [auto|].
  destruct (digit_val a) as [v|] eqn:Hv; [|discriminate].
  intros Hd. destruct (IH Hd) as (Hc & Hr & _ & Hrs).
  destruct (digit_char_plain a v Hv) as (Hcomma & Hspace & Hstr).
  rewrite Hcomma, Hspace, Hstr, Hc, Hr, Hrs. simpl. repeat split.
  destruct d; reflexivity.
Qed.

Lemma replace_spaces_join (sep : ascii) (pieces : list string) :
  sep = ","%char \/ sep = " "%char ->
  Forall (fun d => all_digits d = true) pieces ->
  replace_spaces (join_with sep pieces) = join_with "," pieces.
Proof.
  intros Hsep. induction 1 as [|d pieces Hd _ IH]; [reflexivity|].
  destruct (all_digits_no_char d Hd) as (_ & Hr & _).
  assert (Happ : forall rest, replace_spaces (d ++ String sep rest)
                              = (d ++ String "," (replace_spaces rest))%string).
  { intros rest. rewrite <- Hr at 2. clear -Hsep. induction d as [|a d IH]; simpl.
    - destruct Hsep as [->| ->]; reflexivity.
    - rewrite IH. reflexivity. }
  destruct pieces as [|d' pieces]; [exact Hr|].
  change (join_with sep (d :: d' :: pieces))
    with (d ++ String sep (join_with sep (d' :: pieces)))%string.
  rewrite Happ, IH. reflexivity.
Qed.

Lemma split_all_no_sep (sep : ascii) (d : string) :
  has_char sep d = false -> split_all sep d = [d].
Proof.
  induction d as [|a d IH]; simpl; [reflexivity|].
  intros H. apply orb_false_iff in H as [Ha Hd]. rewrite Ha, (IH Hd). reflexivity.
Qed.

Lemma split_all_app (sep : ascii) (d rest : string) :
  has_char sep d = false ->
  split_all sep (d ++ String sep rest) = d :: split_all sep rest.
Proof.
  induction d as [|a d IH]; simpl; intros H.
  - rewrite Ascii.eqb_refl. reflexivity.
  - apply orb_false_iff in H as [Ha Hd]. rewrite Ha, (IH Hd). reflexivity.
Qed.

Lemma split_all_join (pieces : list string) :
  pieces <> [] ->
  Forall (fun d => all_digits d = true) pieces ->
  split_all "," (join_with "," pieces) = pieces.
Proof.
  intros Hne H. induction H as [|d pieces Hd _ IH]; [congruence|].
  destruct (all_digits_no_char d Hd) as (Hc & _).
  destruct pieces as [|d' pieces]; [apply split_all_no_sep; exact Hc|].
  change (join_with "," (d :: d' :: pieces))
    with (d ++ String "," (join_with "," (d' :: pieces)))%string.
  rewrite split_all_app by exact Hc. f_equal. apply IH. discriminate.
Qed.

Lemma digit_count_all_digits (s : string) :
  all_digits s = true -> digit_count s = String.length s.
Proof.
  induction s as [|a s IH]; simpl; [reflexivity|].
  destruct (digit_val a); [|discriminate]. intros H. rewrite (IH H). reflexivity.
Qed.

Lemma py_int_limited_str_of_nat (n : nat) :
  (String.length (str_of_nat n) <= INT_MAX_STR_DIGITS)%nat ->
  py_int_limited (str_of_nat n) = Some (Z.of_nat n).
Proof.
  intros Hlen. unfold py_int_limited.
  rewrite (digit_count_all_digits _ (proj1 (str_of_nat_digits n))).
  replace (INT_MAX_STR_DIGITS <? String.length (str_of_nat n))%nat with false
    by (symmetry; apply Nat.ltb_ge; exact Hlen).
  apply py_int_str_of_nat.
Qed.

Lemma ints_of_numbers (ids : list nat) :
  Forall (fun n => (String.length (str_of_nat n) <= INT_MAX_STR_DIGITS)%nat) ids ->
  ints_of_pieces (map str_of_nat ids) = Some (map Z.of_nat ids).
Proof.
  induction 1 as [|n ids Hn _ IH]; [reflexivity|]. simpl.
  destruct (str_of_nat_digits n) as [Hd Hne].
  destruct (all_digits_no_char _ Hd) as (_ & _ & Hl & Hr).
  unfold strip. rewrite Hl, Hr.
  pose proof (py_int_limited_str_of_nat n Hn) as Hint.
  destruct (str_of_nat n) as [|a r] eqn:E; [congruence|].
  rewrite Hint, IH. reflexivity.
Qed.

(** One piece that is not a number voids the whole list. *)
Lemma ints_of_pieces_bad (pieces : list string) (piece : string) :
  In piece pieces -> strip piece <> EmptyString ->
  py_int_limited (strip piece) = None ->
  ints_of_pieces pieces = None.
Proof.
  intros Hin Hne Hbad. induction pieces as [|p0 pieces IH]; [destruct Hin|].
  simpl. destruct Hin as [->|Hin].
  - destruct (strip piece) as [|a r]; [congruence|]. rewrite Hbad. reflexivity.
  - rewrite (IH Hin). destruct (strip p0) as [|a r]; [reflexivity|].
    destruct (py_int_limited (String a r)); reflexivity.
Qed.

Lemma admin_ids_from_env_bad (text piece : string) :
  In piece (split_all "," (replace_spaces text)) ->
  strip piece <> EmptyString ->
  py_int_limited (strip piece) = None ->
  admin_ids_from_env (Some text) = [].
Proof.
  intros Hin Hne Hbad. unfold admin_ids_from_env.
  destruct text as [|a r]; [reflexivity|].
  rewrite (ints_of_pieces_bad _ piece Hin Hne Hbad). reflexivity.
Qed.

(** X13.  Decimal user ids of at most 4300 digits each, written one after
    the other and separated by commas or separated by single spaces, are
    read from ADMIN_IDS as that list of ids, in order. *)
Theorem admin_ids_from_env_reads_list (sep : ascii) (ids : list nat) :
  sep = ","%char \/ sep = " "%char ->
  Forall (fun n => (String.length (str_of_nat n) <= INT_MAX_STR_DIGITS)%nat) ids ->
  admin_ids_from_env (Some (join_with sep (map str_of_nat ids))) = map Z.of_nat ids.
Proof.
  intros Hsep Hshort. destruct ids as [|n ids]; [reflexivity|].
  assert (Hall : Forall (fun d => all_digits d = true) (map str_of_nat (n :: ids))).
  { rewrite List.Forall_forall. intros d Hd. apply in_map_iff in Hd as (m & <- & _).
    apply str_of_nat_digits. }
  unfold admin_ids_from_env.
  destruct (join_with sep (map str_of_nat (n :: ids))) as [|a r] eqn:E.
  - exfalso. destruct (str_of_nat_digits n) as [_ Hne]. simpl in E.
    destruct (str_of_nat n); [congruence|]. destruct (map str_of_nat ids); discriminate E.
  - rewrite <- E. rewrite replace_spaces_join by assumption.
    rewrite split_all_join by (try discriminate; exact Hall).
    rewrite ints_of_numbers by exact Hshort. reflexivity.
Qed.

(** X14.  [load_config] returns only a token and a user name that are not
    empty, both as given, and a value for the admin ids that is true in
    Python's sense.  Ids read from ADMIN_IDS take precedence and are
    returned as the list of those integers; only when the variable gives
    no id is the value of the key [admin_ids] of config.json returned,
    whatever JSON value it is.  The variable gives no id as soon as one of
    its entries is not a number.  The sample config.json is written exactly
    when the variable gives no id and no config.json exists, also when the
    call then fails. *)
Theorem load_config_outcome (bot_token bot_username admin_ids_str : option string)
    (config : config_json) :
  let o := load_config bot_token bot_username admin_ids_str config in
  (forall token username ids, loaded o = Some (token, username, ids) ->
     bot_token = Some token /\ token <> EmptyString
     /\ bot_username = Some username /\ username <> EmptyString
     /\ truthy ids = true
     /\ (admin_ids_from_env admin_ids_str <> [] ->
           ids = PyList (map PyInt (admin_ids_from_env admin_ids_str)))
     /\ (admin_ids_from_env admin_ids_str = [] ->
           exists items, config = ConfigFile (PyDict items)
                         /\ dict_get "admin_ids" items = Some ids))
  /\ (wrote_sample o = true <->
      admin_ids_from_env admin_ids_str = [] /\ config = NoConfigFile)
  /\ (forall text piece,
        admin_ids_str = Some text ->
        In piece (split_all "," (replace_spaces text)) ->
        strip piece <> EmptyString ->
        py_int_limited (strip piece) = None ->
        admin_ids_from_env admin_ids_str = []
        /\ forall token username ids, loaded o = Some (token, username, ids) ->
             exists items, config = ConfigFile (PyDict items)
                           /\ dict_get "admin_ids" items = Some ids).
Proof.
  intros o.
  assert (Hloaded : forall token username ids, loaded o = Some (token, username, ids) ->
            bot_token = Some token /\ token <> EmptyString
            /\ bot_username = Some username /\ username <> EmptyString
            /\ truthy ids = true
            /\ (admin_ids_from_env admin_ids_str <> [] ->
                  ids = PyList (map PyInt (admin_ids_from_env admin_ids_str)))
            /\ (admin_ids_from_env admin_ids_str = [] ->
                  exists items, config = ConfigFile (PyDict items)
                                /\ dict_get "admin_ids" items = Some ids)).
  { subst o. unfold load_config. intros token username ids.
    destruct (admin_ids_from_env admin_ids_str) as [|z zs] eqn:Henv; cbn [map truthy].
    - destruct config as [| |c].
      + destruct bot_token as [[|a t]|]; try discriminate;
          destruct bot_username as [[|b u]|]; discriminate.
      + destruct bot_token as [[|a t]|]; try discriminate;
          destruct bot_username as [[|b u]|]; discriminate.
      + destruct bot_token as [[|a t]|]; try discriminate.
        destruct bot_username as [[|b u]|]; try discriminate.
        destruct c as [| | | | | |items]; cbn [config_admin_ids truthy];
          try discriminate.
        destruct (dict_get "admin_ids" items) as [v|] eqn:Hv;
          [|cbn [truthy]; discriminate].
        destruct (truthy v) eqn:Htrue; [|discriminate].
        intros [= <- <- <-]. repeat split; try discriminate; try congruence.
        intros _. exists items. auto.
    - destruct bot_token as [[|a t]|]; try discriminate.
      destruct bot_username as [[|b u]|]; try discriminate.
      intros [= <- <- <-]. repeat split; try discriminate; congruence. }
  split; [exact Hloaded|]. split.
  - subst o. unfold load_config.
    destruct (admin_ids_from_env admin_ids_str) as [|z zs] eqn:Henv; cbn [map truthy].
    + destruct config as [| |c]; destruct bot_token as [[|a t]|];
        try destruct bot_username as [[|b u]|];
        try (destruct (truthy _)); simpl; split; try tauto; try discriminate;
        intros [_ H]; discriminate H.
    + destruct bot_token as [[|a t]|]; try destruct bot_username as [[|b u]|];
        simpl; split; try discriminate; intros [H _]; discriminate H.
  - intros text piece -> Hin Hne Hbad.
    pose proof (admin_ids_from_env_bad text piece Hin Hne Hbad) as Hnone.
    split; [exact Hnone|]. intros token username ids Hres.
    apply (Hloaded token username ids Hres). exact Hnone.
Qed.

(** ** The delete buttons *)

Lemma py_index_nat {A} (l : list A) (k : nat) :
  py_index l (Z.of_nat k) = nth_error l k.
Proof.
  unfold py_index.
  replace (0 <=? Z.of_nat k) with true by (symmetry; apply Z.leb_le; lia).
  rewrite Nat2Z.id. reflexivity.
Qed.

(** X15.  On a healthy store and a database the manager can produce, the
    handler behind the [k]-th delete button removes from the category
    exactly the file whose name it reports, the [k]-th file as
    [get_category] lists them; the uploads in progress are left alone. *)
Theorem delete_file_from_category_names_file (st : bot_state) (cid : string) (k : nat)
    (env : environment) (cat : category) (fi : file_info) :
  db_reachable (db st) ->
  env_fault1 env = None ->
  env_fault2 env = None ->
  get_category None (db st) cid = Some cat ->
  nth_error (files cat) k = Some fi ->
  let o := delete_file_from_category st cid (Z.of_nat k) env in
  raised o = None
  /\ sent o = [EditMessageText (MsgFileDeleted (file_name fi))]
  /\ pending_uploads (after o) = pending_uploads st
  /\ get_category None (db (after o)) cid
     = Some (mk_category (name cat) (remove_at k (files cat))
                         (created_by cat) (created_at cat)).
Proof.
  intros Hreach Hf1 Hf2 Hcat Hk o. subst o.
  destruct (db_reachable_well_formed (db st) Hreach) as (Hu & _ & _).
  destruct (get_category_row (db st) cid cat Hu Hcat) as (c & _ & Hshape).
  assert (Hlen : length (files cat) = length (rows_of (db st) cid)).
  { rewrite Hshape. simpl. apply length_map. }
  assert (Hlt : (k < length (files cat))%nat).
  { apply nth_error_Some. rewrite Hk. discriminate. }
  assert (Hrange : - Z.of_nat (length (rows_of (db st) cid)) <= Z.of_nat k
                   < Z.of_nat (length (rows_of (db st) cid))) by lia.
  destruct (delete_file_position (db st) cid (Z.of_nat k) Hreach Hrange)
    as (Hok & _ & _ & _ & Hget).
  specialize (Hget cat Hcat).
  rewrite Z.mod_small, Nat2Z.id in Hget by lia.
  unfold delete_file_from_category. rewrite Hf1, Hcat, Hf2.
  destruct (Z.of_nat (length (files cat)) <=? Z.of_nat k) eqn:E;
    [apply Z.leb_le in E; lia|].
  rewrite py_index_nat, Hk.
  destruct (delete_file None (db st) cid (Z.of_nat k)) as [ok d'] eqn:Hdel.
  simpl in Hok, Hget. subst ok. simpl. repeat split. exact Hget.
Qed.

(** X16.  [delete_category_handler] deletes only a category that
    [get_category] finds.  When it finds one and the store is healthy, it
    reports the category's name and the category is gone with all its
    files; an upload in progress is not closed, not even one for the
    deleted category.  When it finds none, nothing changes. *)
Theorem delete_category_handler_effect (st : bot_state) (cid : string)
    (env : environment) :
  unique_categories (db st) ->
  env_fault1 env = None ->
  env_fault2 env = None ->
  match get_category None (db st) cid with
  | Some cat =>
      delete_category_handler st cid env
      = done_with (mk_bot_state (without_category (db st) cid) (pending_uploads st))
          [EditMessageText (MsgCategoryDeleted (name cat))]
      /\ get_category None (without_category (db st) cid) cid = None
      /\ rows_of (without_category (db st) cid) cid = []
  | None =>
      delete_category_handler st cid env
      = done_with st [EditMessageText MsgCategoryNotFound]
  end.
Proof.
  intros Hu Hf1 Hf2. unfold delete_category_handler. rewrite Hf1.
  destruct (get_category None (db st) cid) as [cat|]; [|reflexivity].
  destruct (delete_category_effect None (db st) cid Hu) as (Hdel & Hrows & Hget & _).
  rewrite Hf2, Hdel. simpl. auto.
Qed.

(** ** The overview and the creation of a category *)

Section Overview.

Variable ADMIN_IDS : list Z.
Variable BOT_USERNAME : string.

(** X17.  [/categories] shows an admin one line per row of the table
    [categories], in table order, with the category's name, the number of
    its files and its link.  When there is no category, and also when the store fails during
    the read, the answer is that there are no categories. *)
Theorem categories_list_overview (st : bot_state) (user_id : Z) (env : environment) :
  is_admin ADMIN_IDS user_id = true ->
  unique_categories (db st) ->
  categories_list ADMIN_IDS BOT_USERNAME st user_id env
  = done_with st
      [ReplyText
         (if serves (env_fault1 env) (S (length (tbl_categories (db st))))
             && negb (length (tbl_categories (db st)) =? 0)%nat
          then MsgCategoryList
                 (map (fun c => (cat_name c, length (rows_of (db st) (cat_id c)),
                                 generate_category_link BOT_USERNAME (cat_id c)))
                      (tbl_categories (db st)))
          else MsgNoCategories)].
Proof.
  intros Hadmin Hu. unfold categories_list. rewrite Hadmin. cbn [negb].
  rewrite get_categories_exact by exact Hu.
  destruct (serves _ _); [|reflexivity].
  unfold category_listing.
  assert (Hmap : forall l,
            map (fun '(cat_id, cat_info) =>
                   (name cat_info, length (files cat_info),
                    generate_category_link BOT_USERNAME cat_id))
                (map (category_entry (db st)) l)
            = map (fun c => (cat_name c, length (rows_of (db st) (cat_id c)),
                             generate_category_link BOT_USERNAME (cat_id c))) l).
  { intros l. rewrite map_map. apply map_ext. intros c0. unfold category_entry. simpl.
    rewrite length_map. reflexivity. }
  destruct (tbl_categories (db st)) as [|c cats]; [reflexivity|].
  rewrite <- (Hmap (c :: cats)). reflexivity.
Qed.

(** X18.  [/new_category] from an admin with a name, on a healthy store,
    with a generated id that no category has and a user id that fits an
    SQLite integer: the category is created under the first eight
    characters of the uuid with the words of the command joined by spaces
    as its name, the reply carries its link, and [/upload] with that id
    then opens an upload for it. *)
Theorem new_category_creates (st : bot_state) (user_id : Z) (args : list string)
    (env : environment) :
  is_admin ADMIN_IDS user_id = true ->
  args <> [] ->
  unique_categories (db st) ->
  env_fault1 env = None ->
  fits_int64 user_id = true ->
  ~ In (slice_to 8 (env_uuid env)) (map cat_id (tbl_categories (db st))) ->
  let cid := slice_to 8 (env_uuid env) in
  let o := new_category ADMIN_IDS BOT_USERNAME st user_id args env in
  sent o = [ReplyText (MsgCategoryCreated (join_spaces args)
                         (generate_category_link BOT_USERNAME cid) cid)]
  /\ pending_uploads (after o) = pending_uploads st
  /\ get_category None (db (after o)) cid
     = Some (mk_category (join_spaces args) (map file_of_row (rows_of (db st) cid))
                         user_id (env_now env))
  /\ pending_uploads (after (upload_command ADMIN_IDS (after o) user_id [cid] env))
       !! user_id
     = Some (mk_upload_info cid []).
Proof.
  intros Hadmin Hargs Hu Hf Hfit Hnew cid o. subst o.
  destruct (add_category_read_back (db st) cid (join_spaces args) user_id (env_now env)
              Hu Hfit Hnew) as (Hok & Hget & _).
  unfold new_category. rewrite Hadmin. cbn [negb].
  destruct args as [|a args]; [congruence|]. cbn [length Nat.eqb].
  rewrite Hf. fold cid.
  destruct (add_category None (db st) cid (join_spaces (a :: args)) user_id (env_now env))
    as [ok d'] eqn:Hadd.
  simpl in Hok, Hget. subst ok. cbn [after sent done_with pending_uploads db].
  split; [reflexivity|]. split; [reflexivity|]. split; [exact Hget|].
  unfold upload_command. rewrite Hadmin. cbn [negb db]. rewrite Hf, Hget.
  cbn [after done_with pending_uploads]. apply lookup_insert_eq.
Qed.

End Overview.

(** ** The further properties on the sample data *)

Lemma db_two_files_reachable : db_reachable db_two_files.
Proof.
  unfold db_two_files, db_one_category.
  apply reach_add_files, reach_add_category, reach_init.
Qed.

Lemma db_two_categories_unique : unique_categories db_two_categories.
Proof.
  unfold unique_categories. simpl. repeat constructor; simpl; intuition discriminate.
Qed.

Lemma db_one_category_unique : unique_categories db_one_category.
Proof.
  unfold unique_categories. simpl. repeat constructor; simpl; intuition discriminate.
Qed.

Lemma db_two_files_unique : unique_categories db_two_files.
Proof.
  unfold unique_categories. simpl. repeat constructor; simpl; intuition discriminate.
Qed.

Lemma state_committed_db_reachable : db_reachable (db state_committed).
Proof.
  exact (reach_add_files None _ "a1b2c3d4" [doc_a] "t"
           (reach_add_category None _ "a1b2c3d4" "Docs" 1 "t" reach_init)).
Qed.

Lemma state_committed_unique : unique_categories (db state_committed).
Proof.
  unfold unique_categories. simpl. repeat constructor; simpl; intuition discriminate.
Qed.

Lemma state_with_category_unique : unique_categories (db state_with_category).
Proof.
  unfold unique_categories. simpl. repeat constructor; simpl; intuition discriminate.
Qed.

Lemma reachable_tables_well_formed_witness :
  db_reachable db_interleaved
  /\ (unique_categories db_interleaved /\ ids_bounded db_interleaved
      /\ List.NoDup (map row_id (tbl_files db_interleaved))).
Proof.
  exact (conj db_interleaved_reachable
           (reachable_tables_well_formed db_interleaved db_interleaved_reachable)).
Defined.

(** Id 1 is deleted from [db_two_files]; the file added afterwards gets id
    3, and id 1 stays unused. *)
Lemma file_ids_never_reused_witness :
  db_reachable db_two_files
  /\ db_steps db_two_files db_after_delete
  /\ db_steps db_after_delete db_interleaved
  /\ id_in_use db_two_files 1
  /\ ~ id_in_use db_after_delete 1
  /\ ~ id_in_use db_interleaved 1.
Proof.
  assert (H01 : db_steps db_two_files db_after_delete).
  { eapply steps_more; [apply steps_refl|]. apply step_delete_file. }
  assert (H12 : db_steps db_after_delete db_interleaved).
  { eapply steps_more; [apply steps_refl|]. apply step_add_files. }
  assert (Hin : id_in_use db_two_files 1).
  { eexists. split; [left; reflexivity|reflexivity]. }
  assert (Hout : ~ id_in_use db_after_delete 1).
  { intros (r & [<-|[]] & H). discriminate H. }
  repeat (split; [assumption || exact db_two_files_reachable|]).
  exact (file_ids_never_reused db_two_files db_after_delete db_interleaved 1
           db_two_files_reachable H01 H12 Hin Hout).
Defined.

(** Two categories need three queries; a store that answers two gives the
    empty dict. *)
Lemma get_categories_all_or_nothing_witness :
  unique_categories db_two_categories
  /\ get_categories (Some 2%nat) db_two_categories = [].
Proof.
  exact (conj db_two_categories_unique
           (get_categories_all_or_nothing (Some 2%nat) db_two_categories
              db_two_categories_unique)).
Defined.

Lemma add_category_then_get_witness :
  unique_categories db_one_category
  /\ fits_int64 1 = true
  /\ ~ In "b" (map cat_id (tbl_categories db_one_category))
  /\ get_category None (snd (add_category None db_one_category "b" "Other" 1 "t2")) "b"
     = Some (mk_category "Other" [] 1 "t2").
Proof.
  assert (Hnew : ~ In "b" (map cat_id (tbl_categories db_one_category))).
  { simpl. intuition discriminate. }
  split; [exact db_one_category_unique|]. split; [reflexivity|]. split; [exact Hnew|].
  exact (proj1 (proj2 (add_category_then_get db_one_category "b" "Other" 1 "t2"
                         db_one_category_unique eq_refl Hnew))).
Defined.

(** Index -1 of a category with two files is position 1. *)
Lemma delete_file_removes_position_witness :
  db_reachable db_two_files
  /\ - Z.of_nat (length (rows_of db_two_files "a")) <= -1
       < Z.of_nat (length (rows_of db_two_files "a"))
  /\ map row_file_id (rows_of (snd (delete_file None db_two_files "a" (-1))) "a") = ["h1"].
Proof.
  assert (Hrange : - Z.of_nat (length (rows_of db_two_files "a")) <= -1
                   < Z.of_nat (length (rows_of db_two_files "a"))).
  { simpl. lia. }
  split; [exact db_two_files_reachable|]. split; [exact Hrange|].
  exact (f_equal (map row_file_id)
           (proj1 (proj2 (delete_file_removes_position db_two_files "a" (-1)
                            db_two_files_reachable Hrange)))).
Defined.

Lemma delete_category_all_or_nothing_witness :
  unique_categories db_two_categories
  /\ delete_category (Some 2%nat) db_two_categories "a" = (false, db_two_categories)
  /\ get_category None (without_category db_two_categories "a") "a" = None.
Proof.
  split; [exact db_two_categories_unique|]. split.
  - exact (proj1 (delete_category_all_or_nothing (Some 2%nat) db_two_categories "a"
                    db_two_categories_unique)).
  - exact (proj1 (proj2 (proj2 (delete_category_all_or_nothing None db_two_categories "a"
                                  db_two_categories_unique)))).
Defined.

Lemma add_files_then_get_witness :
  unique_categories db_two_files
  /\ forallb storable [doc_c] = true
  /\ top_rowid db_two_files + Z.of_nat (length [doc_c]) <= INT64_MAX
  /\ get_category None db_two_files "a"
     = Some (mk_category "Docs" [doc_a; doc_b] 1 "t0")
  /\ get_category None (snd (add_files_to_category None db_two_files "a" [doc_c] "t2")) "a"
     = Some (mk_category "Docs" [doc_a; doc_b; doc_c] 1 "t0").
Proof.
  assert (Htop : top_rowid db_two_files + Z.of_nat (length [doc_c]) <= INT64_MAX).
  { vm_compute. discriminate. }
  split; [exact db_two_files_unique|]. split; [reflexivity|]. split; [exact Htop|].
  split; [reflexivity|].
  exact (proj1 (proj2 (add_files_then_get db_two_files "a" [doc_c] "t2"
                         (mk_category "Docs" [doc_a; doc_b] 1 "t0")
                         db_two_files_unique eq_refl Htop eq_refl))).
Defined.

Lemma upload_then_finish_witness :
  is_admin [1] 1 = true
  /\ unique_categories (db state_with_category)
  /\ get_category None (db state_with_category) "a1b2c3d4"
     = Some (mk_category "Docs" [] 1 "t")
  /\ get_category None
       (db (after (finish_upload "bot"
              (submit_documents
                 (after (upload_command [1] state_with_category 1 ["a1b2c3d4"] sample_env))
                 1 [(mk_document "h1" (Some "a.txt") (Some 10), Some "first")])
              1 sample_env))) "a1b2c3d4"
     = Some (mk_category "Docs" [doc_a] 1 "t").
Proof.
  assert (Hne : [(mk_document "h1" (Some "a.txt") (Some 10), Some "first")] <> [])
    by discriminate.
  assert (Htop : top_rowid (db state_with_category) + Z.of_nat 1 <= INT64_MAX).
  { vm_compute. discriminate. }
  split; [reflexivity|]. split; [exact state_with_category_unique|].
  split; [reflexivity|].
  exact (proj2 (proj2 (upload_then_finish [1] "bot" state_with_category 1 "a1b2c3d4" []
                         [(mk_document "h1" (Some "a.txt") (Some 10), Some "first")]
                         sample_env (mk_category "Docs" [] 1 "t")
                         eq_refl state_with_category_unique eq_refl eq_refl Hne eq_refl
                         Htop))).
Defined.


Lemma delete_buttons_decode_witness :
  is_admin [1] 1 = true
  /\ has_char "_" "a1b2c3d4" = false
  /\ get_category None (db state_committed) "a1b2c3d4"
     = Some (mk_category "Docs" [doc_a] 1 "t")
  /\ exists buttons,
       sent (show_files_for_deletion state_committed "a1b2c3d4" sample_env)
         = [EditMessageText (MsgChooseFileToDelete buttons)]
       /\ nth_error buttons 0 = Some (Some "a.txt", "del_file_a1b2c3d4_0")
       /\ button_handler [1] state_committed 1 "del_file_a1b2c3d4_0" sample_env
          = after_sending [AnswerQuery]
              (delete_file_from_category state_committed "a1b2c3d4" 0 sample_env).
Proof.
  split; [reflexivity|]. split; [reflexivity|]. split; [reflexivity|].
  exact (delete_buttons_decode [1] state_committed 1 "a1b2c3d4"
           (mk_category "Docs" [doc_a] 1 "t") 0%nat doc_a sample_env sample_env
           eq_refl eq_refl eq_refl eq_refl).
Defined.

Lemma admin_ids_from_env_reads_list_witness :
  (" "%char = ","%char \/ " "%char = " "%char)
  /\ Forall (fun n => (String.length (str_of_nat n) <= INT_MAX_STR_DIGITS)%nat)
       [12%nat; 345%nat; 6%nat]
  /\ admin_ids_from_env (Some "12 345 6") = [12; 345; 6].
Proof.
  assert (Hshort : Forall (fun n => (String.length (str_of_nat n) <= INT_MAX_STR_DIGITS)%nat)
                     [12%nat; 345%nat; 6%nat]).
  { repeat constructor; vm_compute; intros H; discriminate H. }
  split; [right; reflexivity|]. split; [exact Hshort|].
  exact (admin_ids_from_env_reads_list " " [12%nat; 345%nat; 6%nat]
           (or_intror eq_refl) Hshort).
Defined.

Lemma delete_file_from_category_names_file_witness :
  db_reachable (db state_committed)
  /\ get_category None (db state_committed) "a1b2c3d4"
     = Some (mk_category "Docs" [doc_a] 1 "t")
  /\ sent (delete_file_from_category state_committed "a1b2c3d4" 0 sample_env)
     = [EditMessageText (MsgFileDeleted (Some "a.txt"))].
Proof.
  split; [exact state_committed_db_reachable|]. split; [reflexivity|].
  exact (proj1 (proj2 (delete_file_from_category_names_file state_committed "a1b2c3d4"
                         0%nat sample_env (mk_category "Docs" [doc_a] 1 "t") doc_a
                         state_committed_db_reachable eq_refl eq_refl eq_refl eq_refl))).
Defined.

Lemma delete_category_handler_effect_witness :
  unique_categories (db state_committed)
  /\ sent (delete_category_handler state_committed "a1b2c3d4" sample_env)
     = [EditMessageText (MsgCategoryDeleted "Docs")].
Proof.
  split; [exact state_committed_unique|].
  exact (f_equal sent
           (proj1 (delete_category_handler_effect state_committed "a1b2c3d4" sample_env
                     state_committed_unique eq_refl eq_refl))).
Defined.

Lemma categories_list_overview_witness :
  is_admin [1] 1 = true
  /\ unique_categories (db state_committed)
  /\ categories_list [1] "bot" state_committed 1 sample_env
     = done_with state_committed
         [ReplyText (MsgCategoryList
                       [("Docs", 1%nat, "https://t.me/bot?start=cat_a1b2c3d4")])].
Proof.
  split; [reflexivity|]. split; [exact state_committed_unique|].
  exact (categories_list_overview [1] "bot" state_committed 1 sample_env eq_refl
           state_committed_unique).
Defined.

Lemma new_category_creates_witness :
  is_admin [1] 1 = true
  /\ ["My"; "Docs"] <> []
  /\ unique_categories (db boot_state)
  /\ fits_int64 1 = true
  /\ sent (new_category [1] "bot" boot_state 1 ["My"; "Docs"] sample_env)
     = [ReplyText (MsgCategoryCreated "My Docs" "https://t.me/bot?start=cat_a1b2c3d4"
                     "a1b2c3d4")].
Proof.
  assert (Hargs : ["My"; "Docs"] <> []) by discriminate.
  assert (Hu : unique_categories (db boot_state)) by constructor.
  assert (Hnew : ~ In (slice_to 8 (env_uuid sample_env))
                      (map cat_id (tbl_categories (db boot_state)))).
  { simpl. tauto. }
  split; [reflexivity|]. split; [exact Hargs|]. split; [exact Hu|]. split; [reflexivity|].
  exact (proj1 (new_category_creates [1] "bot" boot_state 1 ["My"; "Docs"] sample_env
                  eq_refl Hargs Hu eq_refl eq_refl Hnew)).
Defined.
